(** * chatbot.py: history window, streamed-response assembly, follow-up parsing

    A shallow embedding of the functions of [chatbot.py] and the properties
    of its conversation-window truncation, streamed-response assembler,
    follow-up synthesizer and welcome-message fallback. *)

From Stdlib Require Import List ZArith NArith Lia Bool String Ascii.
From Stdlib Require Import SpecFloat.
Import ListNotations.

Set Warnings "-register-all".


Local Open Scope Z_scope.

(** ** Text

    A Python [str] is a sequence of Unicode code points. *)

Definition char := N.
Definition str := list char.

(** An ASCII literal as a [str]. *)
Definition lit (s : string) : str :=
  map N_of_ascii (list_ascii_of_string s).

Fixpoint str_eqb (a b : str) : bool :=
  match a, b with
  | [], [] => true
  | x :: a', y :: b' => N.eqb x y && str_eqb a' b'
  | _, _ => false
  end.

(** [s.startswith(p)] *)
Fixpoint startswith (s p : str) : bool :=
  match p, s with
  | [], _ => true
  | x :: p', y :: s' => N.eqb x y && startswith s' p'
  | _ :: _, [] => false
  end.

(** [s.endswith(p)] *)
Definition endswith (s p : str) : bool := startswith (rev s) (rev p).

(** [p in s] for two strings: [p] occurs in [s] as a substring. *)
Fixpoint substring_in (p s : str) : bool :=
  startswith s p ||
  match s with
  | [] => false
  | _ :: s' => substring_in p s'
  end.

(** The code points for which [str.isspace] holds; [str.split()] and
    [str.strip()] without arguments cut at exactly these. *)
Definition isspace (c : char) : bool :=
  ((9 <=? c) && (c <=? 13) || (28 <=? c) && (c <=? 32)
   || (c =? 133) || (c =? 160) || (c =? 5760)
   || (8192 <=? c) && (c <=? 8202)
   || (c =? 8232) || (c =? 8233) || (c =? 8239) || (c =? 8287)
   || (c =? 12288))%N.

(** [s.split()]: the maximal runs of non-whitespace code points.
    [cur] holds the current run, reversed. *)
Fixpoint split_aux (s : str) (cur : str) : list str :=
  match s with
  | [] => match cur with [] => [] | _ => [rev cur] end
  | c :: s' =>
      if isspace c
      then match cur with
           | [] => split_aux s' []
           | _ => rev cur :: split_aux s' []
           end
      else split_aux s' (c :: cur)
  end.

Definition split (s : str) : list str := split_aux s [].

Fixpoint lstrip (s : str) : str :=
  match s with
  | c :: s' => if isspace c then lstrip s' else s
  | [] => []
  end.

(** [s.strip()] *)
Definition strip (s : str) : str := rev (lstrip (rev (lstrip s))).

(** ** Messages and the history window *)

Inductive Role := system | user | assistant.

Record Message := mkMessage { role : Role; content : str }.

Definition MAX_TOKENS : Z := 4096.
Definition TOKEN_MARGIN : Z := 512.

(** [len(message['content'].split())] *)
Definition message_tokens (m : Message) : Z :=
  Z.of_nat (List.length (split (content m))).

(** The body of [for message in reversed(messages)]: [todo] is what is left of
    the reversed log, [total_tokens] and [truncated_messages] are the two
    local variables; the [else: break] branch returns at once. *)
Fixpoint truncate_loop (max_tokens margin : Z) (todo : list Message)
    (total_tokens : Z) (truncated_messages : list Message) : list Message :=
  match todo with
  | [] => truncated_messages
  | message :: todo' =>
      let t := message_tokens message in
      if total_tokens + t + margin <=? max_tokens
      then truncate_loop max_tokens margin todo' (total_tokens + t)
             (message :: truncated_messages)
      else truncated_messages
  end.

Definition truncate_with (max_tokens margin : Z) (messages : list Message)
    : list Message :=
  truncate_loop max_tokens margin (rev messages) 0 [].

Definition truncate_messages (messages : list Message) : list Message :=
  truncate_with MAX_TOKENS TOKEN_MARGIN messages.

(** Cumulative approximate cost of a window. *)
Fixpoint cost (l : list Message) : Z :=
  match l with
  | [] => 0
  | m :: l' => message_tokens m + cost l'
  end.

(** ** Decoded JSON values

    What [json.loads] and [response.json()] return: [None], [bool], [int],
    [float], [str], [list] and [dict].  A [dict] keeps its keys in insertion
    order and holds each key once; it is an association list under that
    invariant, which [dict_set] maintains. *)

Inductive JSON :=
| JNull
| JBool (b : bool)
| JInt (n : Z)
| JFloat (f : spec_float)
| JStr (s : str)
| JArr (items : list JSON)
| JObj (fields : list (str * JSON)).

(** [d[k] = v] on a dict: overwrite in place, or append a new key. *)
Fixpoint dict_set (d : list (str * JSON)) (k : str) (v : JSON)
    : list (str * JSON) :=
  match d with
  | [] => [(k, v)]
  | (k', v') :: d' =>
      if str_eqb k' k then (k', v) :: d' else (k', v') :: dict_set d' k v
  end.

Fixpoint dict_get (d : list (str * JSON)) (k : str) : option JSON :=
  match d with
  | [] => None
  | (k', v) :: d' => if str_eqb k' k then Some v else dict_get d' k
  end.

(** [d.values()] *)
Definition dict_values (d : list (str * JSON)) : list JSON := map snd d.

(** ** Exceptions and results *)

Inductive exn :=
| JSONDecodeError
| KeyError
| IndexError
| TypeError
| AttributeError
| UnicodeDecodeError
| HTTPError
| RequestException.

Inductive result (A : Type) :=
| Ok (a : A)
| Raise (e : exn).

Arguments Ok {A} a.
Arguments Raise {A} e.

Definition rbind {A B} (r : result A) (k : A -> result B) : result B :=
  match r with
  | Ok a => k a
  | Raise e => Raise e
  end.

Declare Scope result_scope.
Delimit Scope result_scope with result.
Notation "x <- r ;; k" := (rbind r (fun x => k))
  (at level 61, r at next level, right associativity) : result_scope.

(** ** Python operators on decoded values *)

(** [bool(v)] *)
Definition truthy (v : JSON) : bool :=
  match v with
  | JNull => false
  | JBool b => b
  | JInt n => negb (n =? 0)
  | JFloat (S754_zero _) => false
  | JFloat _ => true
  | JStr s => match s with [] => false | _ => true end
  | JArr l => match l with [] => false | _ => true end
  | JObj d => match d with [] => false | _ => true end
  end.

(** [JStr k == v] *)
Definition eq_str (k : str) (v : JSON) : bool :=
  match v with
  | JStr s => str_eqb k s
  | _ => false
  end.

(** [k in v] for a string [k]: key test on a dict, element test on a list,
    substring test on a string; the other types are not iterable. *)
Definition contains (k : str) (v : JSON) : result bool :=
  match v with
  | JObj d => Ok (match dict_get d k with Some _ => true | None => false end)
  | JArr l => Ok (existsb (eq_str k) l)
  | JStr s => Ok (substring_in k s)
  | _ => Raise TypeError
  end.

(** [v[k]] for a string [k] *)
Definition getitem (v : JSON) (k : str) : result JSON :=
  match v with
  | JObj d => match dict_get d k with Some x => Ok x | None => Raise KeyError end
  | _ => Raise TypeError
  end.

(** [v[0]]: a decoded dict has string keys only, so [0] is never one. *)
Definition getitem0 (v : JSON) : result JSON :=
  match v with
  | JArr l => match l with x :: _ => Ok x | [] => Raise IndexError end
  | JStr s => match s with c :: _ => Ok (JStr [c]) | [] => Raise IndexError end
  | JObj _ => Raise KeyError
  | _ => Raise TypeError
  end.

(** [s + v] for a string [s] *)
Definition str_add (s : str) (v : JSON) : result str :=
  match v with
  | JStr t => Ok (s ++ t)
  | _ => Raise TypeError
  end.

(** [v.strip()] *)
Definition strip_method (v : JSON) : result str :=
  match v with
  | JStr s => Ok (strip s)
  | _ => Raise AttributeError
  end.

(** [v.values()] *)
Definition values_method (v : JSON) : result (list JSON) :=
  match v with
  | JObj d => Ok (dict_values d)
  | _ => Raise AttributeError
  end.

(** ** The transport boundary *)

Record Payload := mkPayload {
  p_model : str;
  p_messages : list Message;
  p_temperature : Z * Z;
  p_stream : bool
}.

(** One step of [response.iter_lines()]: the next raw line, or a transport
    exception raised while the body is being read.  A raw line is a [bytes]
    value; the code only tests it for emptiness and decodes it, so it is kept
    as the text it decodes to, or as [NotUtf8] when [decode] fails. *)
Inductive RawLine :=
| Utf8 (text : str)
| NotUtf8.

Inductive StreamItem :=
| Line (raw : RawLine)
| TransportFailure.

(** A [requests.Response]: its status, what [response.json()] gives ([None]
    when the body is not JSON and the call raises), and its line stream. *)
Record Response := mkResponse {
  status_code : Z;
  json : option JSON;
  iter_lines : list StreamItem
}.

(** [response.raise_for_status()] raises for a 4xx or 5xx status, and
    [bool(response)] is [response.ok]: true when it would not raise. *)
Definition is_error_status (r : Response) : bool :=
  (400 <=? status_code r) && (status_code r <? 600).

Definition ok (r : Response) : bool := negb (is_error_status r).

(** [if response:] on what [make_request] returned. *)
Definition response_truthy (response : option Response) : bool :=
  match response with
  | Some r => ok r
  | None => false
  end.

(** ** Session state, display and diagnostics *)

(** The records written to the diagnostic log, one constructor per
    [logging.info] or [logging.error] call, carrying the logged data.
    The log level is INFO, so [logging.debug] writes nothing. *)
Inductive LogEntry :=
| InfoResponseData (d : JSON)
| ErrorNoValidResponse
| ErrorMakingRequest
| InfoFollowUpResponseData (d : JSON)
| ErrorParsingFollowUp (e : exn)
| InfoPayload (p : Payload)
| InfoStreamCompleted
| ErrorJSONDecoding
| ErrorFailedToDecodeLine (decoded_line : str)
| ErrorRawResponseContent (decoded_line : str)
| ErrorOccurred
| InfoFinalResponse (full_response : str).

(** [st.session_state] and what the run writes outside it: [shown] records
    every [response_container.markdown] call and [errors_shown] every
    [st.error] call (by the exception it reports), oldest first; [sent] records every payload handed to
    [requests.post].  The placeholder [response_container] is created by the
    caller right before each [process_llm_response] call. *)
Record World := mkWorld {
  messages : list Message;
  suggestions : list str;
  shown : list str;
  errors_shown : list exn;
  log : list LogEntry;
  sent : list Payload
}.

Definition M (A : Type) : Type := World -> result A * World.

Definition ret {A} (a : A) : M A := fun w => (Ok a, w).

Definition bind {A B} (m : M A) (k : A -> M B) : M B :=
  fun w =>
    match m w with
    | (Ok a, w') => k a w'
    | (Raise e, w') => (Raise e, w')
    end.

Definition lift {A} (r : result A) : M A := fun w => (r, w).

Declare Scope m_scope.
Delimit Scope m_scope with M.
Notation "x <- m ;; k" := (bind m (fun x => k))
  (at level 61, m at next level, right associativity) : m_scope.
Notation "m ;;; k" := (bind m (fun _ => k))
  (at level 61, right associativity) : m_scope.

(** [try: body  except E: handler] for the exceptions [E] that [catches]
    accepts; any other exception goes on. *)
Definition try_except {A} (body : M A) (catches : exn -> bool)
    (handler : exn -> M A) : M A :=
  fun w =>
    match body w with
    | (Ok a, w') => (Ok a, w')
    | (Raise e, w') => if catches e then handler e w' else (Raise e, w')
    end.

Definition logging (e : LogEntry) : M unit :=
  fun w => (Ok tt, mkWorld (messages w) (suggestions w) (shown w)
                     (errors_shown w) (log w ++ [e]) (sent w)).

(** [st.session_state.response_container.markdown(text)] *)
Definition markdown (text : str) : M unit :=
  fun w => (Ok tt, mkWorld (messages w) (suggestions w) (shown w ++ [text])
                     (errors_shown w) (log w) (sent w)).

(** [st.error(f"An error occurred: {e}")] *)
Definition st_error (e : exn) : M unit :=
  fun w => (Ok tt, mkWorld (messages w) (suggestions w) (shown w)
                     (errors_shown w ++ [e]) (log w) (sent w)).

(** [st.session_state.messages.append(m)] *)
Definition append_message (m : Message) : M unit :=
  fun w => (Ok tt, mkWorld (messages w ++ [m]) (suggestions w) (shown w)
                     (errors_shown w) (log w) (sent w)).

(** [st.session_state.suggestions = l] *)
Definition set_suggestions (l : list str) : M unit :=
  fun w => (Ok tt, mkWorld (messages w) l (shown w)
                     (errors_shown w) (log w) (sent w)).

Definition record_sent (p : Payload) : M unit :=
  fun w => (Ok tt, mkWorld (messages w) (suggestions w) (shown w)
                     (errors_shown w) (log w) (sent w ++ [p])).

Definition get_messages : M (list Message) := fun w => (Ok (messages w), w).

(** ** Constants *)

Definition smiley : str := [128522%N].
Definition dquote : str := [34%N].

Definition MODEL : str := lit "openai/gpt-4o".
Definition FOLLOWUPMODEL : str := lit "openai/gpt-4o".
Definition TEMPERATURE : Z * Z := (9, 10).

Definition FALLBACK_GREETING : str :=
  lit "Hello! How can I help you today? " ++ smiley.

Definition ERROR_TEXT : str :=
  lit "An error occurred while processing your request.".

Definition DONE_LINE : str := lit "data: [DONE]".
Definition DATA_PREFIX : str := lit "data: ".

Definition INITIAL_PROMPT : str :=
  lit "Generate a welcome message for the user in ten words or less. You can use Markdown and emojis "
  ++ smiley ++ lit ".".

Definition STREAM_PROMPT : str :=
  lit "You can use Markdown and emojis " ++ smiley ++ lit ".".

Definition quoted (s : string) : str := dquote ++ lit s ++ dquote.

Definition FOLLOW_UP_PROMPT : str :=
  lit "Generate up to four follow-up questions based on the conversation from the tense that a user may want to ask next. You can use Markdown and emojis "
  ++ smiley
  ++ lit ". Return the questions in the following JSON format: {"
  ++ quoted "q1" ++ lit ": " ++ quoted "Question 1" ++ lit ", "
  ++ quoted "q2" ++ lit ": " ++ quoted "Question 2" ++ lit ", "
  ++ quoted "q3" ++ lit ": " ++ quoted "Question 3" ++ lit ", "
  ++ quoted "q4" ++ lit ": " ++ quoted "Question 4" ++ lit "}".

(** ** Shape tests shared by the three readers of a completion body *)

(** ["choices" in data and data["choices"]] *)
Definition choices_present (data : JSON) : result bool :=
  (c <- contains (lit "choices") data ;;
   if c then (v <- getitem data (lit "choices") ;; Ok (truthy v))
   else Ok false)%result.

(** [data and "choices" in data and data["choices"]] *)
Definition usable (response_data : JSON) : result bool :=
  if truthy response_data then choices_present response_data else Ok false.

(** [response_data["choices"][0]["message"]["content"]] *)
Definition message_content (response_data : JSON) : result JSON :=
  (c <- getitem response_data (lit "choices") ;;
   c0 <- getitem0 c ;;
   m <- getitem c0 (lit "message") ;;
   getitem m (lit "content"))%result.

(** [[q for q in values if q.strip()]] *)
Fixpoint questions_of (values : list JSON) : result (list str) :=
  match values with
  | [] => Ok []
  | q :: rest =>
      match q with
      | JStr s =>
          match questions_of rest with
          | Ok qs => Ok (if truthy (JStr (strip s)) then s :: qs else qs)
          | Raise e => Raise e
          end
      | _ => Raise AttributeError
      end
  end.

(** [response.json()] *)
Definition response_json (r : Response) : result JSON :=
  match json r with
  | Some d => Ok d
  | None => Raise JSONDecodeError
  end.

Section Program.

(** [json.loads] on a string: the decoded value, or [None] when it raises
    [JSONDecodeError]. *)
Variable json_loads : str -> option JSON.

(** [requests.post]: the response, or [None] when it raises a
    [RequestException]. *)
Variable requests_post : Payload -> option Response.

Definition loads (s : str) : result JSON :=
  match json_loads s with
  | Some d => Ok d
  | None => Raise JSONDecodeError
  end.

Definition make_request (payload : Payload) : M (option Response) :=
  (record_sent payload ;;;
   match requests_post payload with
   | Some response => ret (Some response)
   | None => logging ErrorMakingRequest ;;; ret None
   end)%M.

Definition log_and_return_response (response : Response) : M JSON :=
  ((if is_error_status response then lift (Raise HTTPError) else ret tt) ;;;
   response_data <- lift (response_json response) ;;
   logging (InfoResponseData response_data) ;;;
   u <- lift (usable response_data) ;;
   if u then lift (message_content response_data)
   else (logging ErrorNoValidResponse ;;; ret (JStr FALLBACK_GREETING)))%M.

Definition initial_payload : Payload :=
  mkPayload MODEL [mkMessage system INITIAL_PROMPT] TEMPERATURE false.

Definition generate_initial_message : M JSON :=
  (response <- make_request initial_payload ;;
   match response with
   | Some r =>
       if ok r then log_and_return_response r
       else ret (JStr FALLBACK_GREETING)
   | None => ret (JStr FALLBACK_GREETING)
   end)%M.

(** The [try] block of [generate_follow_up_questions]; [[]] stands for
    falling through to the final [return []]. *)
Definition follow_up_try (response_data : JSON) : result (list str) :=
  (content <- message_content response_data ;;
   content <- strip_method content ;;
   if startswith content (lit "{") && endswith content (lit "}")
   then
     questions_data <- loads content ;;
     values <- values_method questions_data ;;
     questions <- questions_of values ;;
     match questions with
     | _ :: _ => Ok questions
     | [] => Ok []
     end
   else Ok [])%result.

Definition catches_follow_up (e : exn) : bool :=
  match e with
  | JSONDecodeError | KeyError => true
  | _ => false
  end.

Definition follow_up_payload (msgs : list Message) : Payload :=
  mkPayload MODEL
    (truncate_messages msgs ++ [mkMessage system FOLLOW_UP_PROMPT])
    TEMPERATURE false.

Definition generate_follow_up_questions (msgs : list Message)
    : M (list str) :=
  (let payload := follow_up_payload msgs in
   response <- make_request payload ;;
   match response with
   | Some r =>
       if ok r then
         response_data <- lift (response_json r) ;;
         logging (InfoFollowUpResponseData response_data) ;;;
         u <- lift (usable response_data) ;;
         if u then
           try_except (lift (follow_up_try response_data))
             catches_follow_up
             (fun e => logging (ErrorParsingFollowUp e) ;;; ret [])
         else ret []
       else ret []
   | None => ret []
   end)%M.

(** The [try] block for one [data: ] line: what is appended to
    [full_response], if anything. *)
Definition delta_of (decoded_line : str) : result (option JSON) :=
  (data <- loads (skipn (List.length DATA_PREFIX) decoded_line) ;;
   c <- choices_present data ;;
   if c then
     ch <- getitem data (lit "choices") ;;
     choice <- getitem0 ch ;;
     d <- contains (lit "delta") choice ;;
     if d then
       delta <- getitem choice (lit "delta") ;;
       k <- contains (lit "content") delta ;;
       if k then
         delta <- getitem choice (lit "delta") ;;
         v <- getitem delta (lit "content") ;;
         Ok (Some v)
       else Ok None
     else Ok None
   else Ok None)%result.

Definition catches_json (e : exn) : bool :=
  match e with
  | JSONDecodeError => true
  | _ => false
  end.

(** The [if decoded_line.startswith("data: "):] block. *)
Definition handle_data_line (decoded_line : str) (full_response : str)
    : M str :=
  try_except
    (d <- lift (delta_of decoded_line) ;;
     match d with
     | Some v =>
         full_response' <- lift (str_add full_response v) ;;
         markdown full_response' ;;;
         ret full_response'
     | None => ret full_response
     end)%M
    catches_json
    (fun _ =>
       logging ErrorJSONDecoding ;;;
       logging (ErrorFailedToDecodeLine decoded_line) ;;;
       logging (ErrorRawResponseContent decoded_line) ;;;
       ret full_response)%M.

(** [for line in response.iter_lines():] with the local [full_response]. *)
Fixpoint stream_loop (items : list StreamItem) (full_response : str)
    : M str :=
  match items with
  | [] => ret full_response
  | TransportFailure :: _ => lift (Raise RequestException)
  | Line NotUtf8 :: _ => lift (Raise UnicodeDecodeError)
  | Line (Utf8 []) :: rest => stream_loop rest full_response
  | Line (Utf8 decoded_line) :: rest =>
      if str_eqb decoded_line DONE_LINE
      then (logging InfoStreamCompleted ;;; ret full_response)%M
      else if startswith decoded_line DATA_PREFIX
      then (full_response' <- handle_data_line decoded_line full_response ;;
            stream_loop rest full_response')%M
      else stream_loop rest full_response
  end.

Definition catches_request (e : exn) : bool :=
  match e with
  | RequestException | HTTPError => true
  | _ => false
  end.

(** The block from [full_response = ""] to the end of the outer [try]:
    the text that will be committed. *)
Definition assemble (response : option Response) : M str :=
  match response with
  | Some r =>
      if ok r then
        try_except (stream_loop (iter_lines r) [])
          catches_request
          (fun e =>
             st_error e ;;;
             logging ErrorOccurred ;;;
             ret ERROR_TEXT)%M
      else ret []
  | None => ret []
  end.

Definition stream_payload (msgs : list Message) : Payload :=
  mkPayload FOLLOWUPMODEL
    (truncate_messages msgs ++ [mkMessage system STREAM_PROMPT])
    TEMPERATURE true.

Definition process_llm_response (msgs : list Message) : M unit :=
  (let payload := stream_payload msgs in
   logging (InfoPayload payload) ;;;
   response <- make_request payload ;;
   full_response <- assemble response ;;
   logging (InfoFinalResponse full_response) ;;;
   append_message (mkMessage assistant full_response) ;;;
   session_messages <- get_messages ;;
   follow_up_questions <- generate_follow_up_questions session_messages ;;
   set_suggestions follow_up_questions)%M.

End Program.

(** ** A reference decoder

    [json_loads_ref] decodes a JSON text the way [json.loads] does with its
    default settings: insignificant whitespace is space, tab, line feed and
    carriage return; strings are strict (no raw control characters) with the
    escapes of the JSON grammar and joined surrogate pairs; a number without
    fraction and exponent is an [int], any other a binary64 [float] rounded
    to nearest even; [NaN], [Infinity] and [-Infinity] are accepted; a
    repeated key keeps its first position and its last value.  The
    properties below hold for every decoder; this one evaluates the
    examples. *)

Module Decoder.

Local Open Scope N_scope.

Inductive token :=
| TLBrace | TRBrace | TLBracket | TRBracket | TColon | TComma
| TValue (v : JSON).

Definition is_digit (c : char) : bool := (48 <=? c) && (c <=? 57).

Definition hexval (c : char) : option N :=
  if is_digit c then Some (c - 48)
  else if (97 <=? c) && (c <=? 102) then Some (c - 87)
  else if (65 <=? c) && (c <=? 70) then Some (c - 55)
  else None.

Definition hex4 (s : str) : option (N * str) :=
  match s with
  | a :: b :: c :: d :: rest =>
      match hexval a, hexval b, hexval c, hexval d with
      | Some x, Some y, Some z, Some w =>
          Some (((x * 16 + y) * 16 + z) * 16 + w, rest)
      | _, _, _, _ => None
      end
  | _ => None
  end.

Definition unescape (c : char) : option char :=
  if c =? 34 then Some 34        (* quote *)
  else if c =? 92 then Some 92   (* backslash *)
  else if c =? 47 then Some 47   (* slash *)
  else if c =? 98 then Some 8    (* b *)
  else if c =? 102 then Some 12  (* f *)
  else if c =? 110 then Some 10  (* n *)
  else if c =? 114 then Some 13  (* r *)
  else if c =? 116 then Some 9   (* t *)
  else None.

Definition is_high_surrogate (c : N) : bool := (55296 <=? c) && (c <=? 56319).
Definition is_low_surrogate (c : N) : bool := (56320 <=? c) && (c <=? 57343).
Definition join_surrogates (hi lo : N) : N :=
  65536 + ((hi - 55296) * 1024 + (lo - 56320)).

(** The rest of a string after its opening quote: the decoded text (built
    reversed in [acc]) and what follows the closing quote. *)
Fixpoint lex_string (fuel : nat) (s : str) (acc : str) : option (str * str) :=
  match fuel with
  | O => None
  | S fuel' =>
      match s with
      | [] => None
      | c :: rest =>
          if c =? 34 then Some (rev acc, rest)
          else if c =? 92 then
            match rest with
            | [] => None
            | e :: rest1 =>
                if e =? 117 then
                  match hex4 rest1 with
                  | None => None
                  | Some (u, rest2) =>
                      if is_high_surrogate u then
                        match rest2 with
                        | b :: v :: rest3 =>
                            if (b =? 92) && (v =? 117) then
                              match hex4 rest3 with
                              | None => None
                              | Some (u2, rest4) =>
                                  if is_low_surrogate u2
                                  then lex_string fuel' rest4
                                         (join_surrogates u u2 :: acc)
                                  else lex_string fuel' rest2 (u :: acc)
                              end
                            else lex_string fuel' rest2 (u :: acc)
                        | _ => lex_string fuel' rest2 (u :: acc)
                        end
                      else lex_string fuel' rest2 (u :: acc)
                  end
                else
                  match unescape e with
                  | Some x => lex_string fuel' rest1 (x :: acc)
                  | None => None
                  end
            end
          else if c <? 32 then None
          else lex_string fuel' rest (c :: acc)
      end
  end.

(** The longest run of ASCII digits at the front, and the rest. *)
Fixpoint digits (s : str) : str * str :=
  match s with
  | c :: s' =>
      if is_digit c then let (d, r) := digits s' in (c :: d, r)
      else ([], s)
  | [] => ([], [])
  end.

Definition Z_of_digits (d : str) : Z :=
  fold_left (fun a c => (a * 10 + Z.of_N (c - 48))%Z) d 0%Z.

(** The binary64 nearest to [m * 10^e], ties to even, for [m > 0]. *)
Definition float_of_decimal (neg : bool) (m : positive) (e : Z) : spec_float :=
  match e with
  | Zneg k =>
      let den := Z.pow 10 (Zpos k) in
      let s := Z.max 0 (55 + Z.log2 den - Z.log2 (Zpos m))%Z in
      let num := Z.shiftl (Zpos m) s in
      let q := Z.div num den in
      let r := Z.modulo num den in
      let l := if (r =? 0)%Z then loc_Exact
               else loc_Inexact (Z.compare (2 * r) den) in
      binary_round_aux 53 1024 neg q (- s)%Z l
  | _ =>
      match (Z.pow 10 e * Zpos m)%Z with
      | Zpos n => binary_round 53 1024 neg n 0
      | _ => S754_nan
      end
  end.

(** A number at the front of [s]: an optional minus sign, then [0] or a
    digit run that does not start with [0], then optionally a dot with at
    least one digit, then optionally [e] or [E] with an optional sign and at
    least one digit. *)
Definition lex_number (s : str) : option (JSON * str) :=
  let (neg, s1) :=
    match s with
    | c :: s' => if c =? 45 then (true, s') else (false, s)
    | [] => (false, s)
    end in
  let int_part :=
    match s1 with
    | c :: s' =>
        if c =? 48 then Some ([c], s')
        else if is_digit c then Some (digits s1)
        else None
    | [] => None
    end in
  match int_part with
  | None => None
  | Some (ip, s2) =>
      let (frac, s3) :=
        match s2 with
        | c :: s' =>
            if c =? 46 then
              match digits s' with
              | ([], _) => (None, s2)
              | (fd, r) => (Some fd, r)
              end
            else (None, s2)
        | [] => (None, s2)
        end in
      let (exp, s4) :=
        match s3 with
        | c :: s' =>
            if (c =? 101) || (c =? 69) then
              let (eneg, s'') :=
                match s' with
                | g :: t => if g =? 45 then (true, t)
                            else if g =? 43 then (false, t)
                            else (false, s')
                | [] => (false, s')
                end in
              match digits s'' with
              | ([], _) => (None, s3)
              | (ed, r) =>
                  (Some (if eneg then (- Z_of_digits ed)%Z else Z_of_digits ed), r)
              end
            else (None, s3)
        | [] => (None, s3)
        end in
      match frac, exp with
      | None, None =>
          Some (JInt (if neg then (- Z_of_digits ip)%Z else Z_of_digits ip), s4)
      | _, _ =>
          let fd := match frac with Some fd => fd | None => [] end in
          let ex := match exp with Some ex => ex | None => 0%Z end in
          let e := (ex - Z.of_nat (List.length fd))%Z in
          match Z_of_digits (ip ++ fd) with
          | Zpos m => Some (JFloat (float_of_decimal neg m e), s4)
          | _ => Some (JFloat (S754_zero neg), s4)
          end
      end
  end.

Definition is_ws (c : char) : bool :=
  (c =? 32) || (c =? 9) || (c =? 10) || (c =? 13).

Definition literal (s : str) (name : string) (v : JSON)
    : option (JSON * str) :=
  if startswith s (lit name)
  then Some (v, skipn (List.length (lit name)) s)
  else None.

(** One scalar at the front of [s], tried in the order of the scanner. *)
Definition lex_scalar (s : str) : option (JSON * str) :=
  match s with
  | c :: rest =>
      if c =? 34 then
        match lex_string (S (List.length rest)) rest [] with
        | Some (t, r) => Some (JStr t, r)
        | None => None
        end
      else if c =? 110 then literal s "null" JNull
      else if c =? 116 then literal s "true" (JBool true)
      else if c =? 102 then literal s "false" (JBool false)
      else
        match lex_number s with
        | Some x => Some x
        | None =>
            if c =? 78 then literal s "NaN" (JFloat S754_nan)
            else if c =? 73 then literal s "Infinity" (JFloat (S754_infinity false))
            else if c =? 45 then literal s "-Infinity" (JFloat (S754_infinity true))
            else None
        end
  | [] => None
  end.

Fixpoint lex (fuel : nat) (s : str) : option (list token) :=
  match fuel with
  | O => None
  | S fuel' =>
      match s with
      | [] => Some []
      | c :: rest =>
          let punct t :=
            match lex fuel' rest with
            | Some ts => Some (t :: ts)
            | None => None
            end in
          if is_ws c then lex fuel' rest
          else if c =? 123 then punct TLBrace
          else if c =? 125 then punct TRBrace
          else if c =? 91 then punct TLBracket
          else if c =? 93 then punct TRBracket
          else if c =? 58 then punct TColon
          else if c =? 44 then punct TComma
          else
            match lex_scalar s with
            | Some (v, r) =>
                match lex fuel' r with
                | Some ts => Some (TValue v :: ts)
                | None => None
                end
            | None => None
            end
      end
  end.

Fixpoint parse_value (fuel : nat) (ts : list token)
    : option (JSON * list token) :=
  match fuel with
  | O => None
  | S f =>
      match ts with
      | TValue v :: r => Some (v, r)
      | TLBracket :: TRBracket :: r => Some (JArr [], r)
      | TLBracket :: r => parse_items f r []
      | TLBrace :: TRBrace :: r => Some (JObj [], r)
      | TLBrace :: r => parse_fields f r []
      | _ => None
      end
  end
with parse_items (fuel : nat) (ts : list token) (acc : list JSON)
    : option (JSON * list token) :=
  match fuel with
  | O => None
  | S f =>
      match parse_value f ts with
      | Some (v, TComma :: r) => parse_items f r (v :: acc)
      | Some (v, TRBracket :: r) => Some (JArr (rev (v :: acc)), r)
      | _ => None
      end
  end
with parse_fields (fuel : nat) (ts : list token) (d : list (str * JSON))
    : option (JSON * list token) :=
  match fuel with
  | O => None
  | S f =>
      match ts with
      | TValue (JStr k) :: TColon :: r =>
          match parse_value f r with
          | Some (v, TComma :: r') => parse_fields f r' (dict_set d k v)
          | Some (v, TRBrace :: r') => Some (JObj (dict_set d k v), r')
          | _ => None
          end
      | _ => None
      end
  end.

Definition decode (s : str) : option JSON :=
  match lex (S (List.length s)) s with
  | Some ts =>
      match parse_value (2 * List.length ts + 2) ts with
      | Some (v, []) => Some v
      | _ => None
      end
  | None => None
  end.

End Decoder.

Definition json_loads_ref : str -> option JSON := Decoder.decode.

(** ** A line-by-line summary of the stream loop

    [classify] says what one iteration of the loop does with an item;
    the functions after it read the end of the run, the deltas folded in,
    and the log records written, off the classified items.
    [stream_loop_summary] below proves that the loop does exactly that. *)

Inductive LineKind :=
| Ignored
| Sentinel
| Delta (t : str)
| Malformed (decoded_line : str)
| Broken (e : exn).

Definition classify (json_loads : str -> option JSON) (item : StreamItem)
    : LineKind :=
  match item with
  | TransportFailure => Broken RequestException
  | Line NotUtf8 => Broken UnicodeDecodeError
  | Line (Utf8 []) => Ignored
  | Line (Utf8 decoded_line) =>
      if str_eqb decoded_line DONE_LINE then Sentinel
      else if startswith decoded_line DATA_PREFIX then
        match delta_of json_loads decoded_line with
        | Ok None => Ignored
        | Ok (Some (JStr t)) => Delta t
        | Ok (Some _) => Broken TypeError
        | Raise JSONDecodeError => Malformed decoded_line
        | Raise e => Broken e
        end
      else Ignored
  end.

Inductive End :=
| Closed
| AtSentinel
| Failed (e : exn).

Fixpoint stream_end (ks : list LineKind) : End :=
  match ks with
  | [] => Closed
  | Sentinel :: _ => AtSentinel
  | Broken e :: _ => Failed e
  | _ :: ks' => stream_end ks'
  end.

(** The contents of the deltas that arrive before the run ends. *)
Fixpoint deltas (ks : list LineKind) : list str :=
  match ks with
  | [] => []
  | Sentinel :: _ => []
  | Broken _ :: _ => []
  | Delta t :: ks' => t :: deltas ks'
  | _ :: ks' => deltas ks'
  end.

Fixpoint stream_log (ks : list LineKind) : list LogEntry :=
  match ks with
  | [] => []
  | Sentinel :: _ => [InfoStreamCompleted]
  | Broken _ :: _ => []
  | Malformed d :: ks' =>
      ErrorJSONDecoding :: ErrorFailedToDecodeLine d
      :: ErrorRawResponseContent d :: stream_log ks'
  | _ :: ks' => stream_log ks'
  end.

(** The texts shown while [ds] are folded into [full], one per delta. *)
Fixpoint prefixes (full : str) (ds : list str) : list str :=
  match ds with
  | [] => []
  | t :: ds' => (full ++ t) :: prefixes (full ++ t) ds'
  end.

(** Each text of [l] extends the one before it, starting from [prev]. *)
Fixpoint growing (prev : str) (l : list str) : Prop :=
  match l with
  | [] => True
  | s :: l' => (exists t, s = prev ++ t) /\ growing s l'
  end.

(** An item the loop gets past, or stops at, without an exception. *)
Definition handled (json_loads : str -> option JSON) (item : StreamItem)
    : bool :=
  match classify json_loads item with
  | Broken _ => false
  | _ => true
  end.

Definition is_sentinel (item : StreamItem) : bool :=
  match item with
  | Line (Utf8 d) => str_eqb d DONE_LINE
  | _ => false
  end.

Definition is_delta (json_loads : str -> option JSON) (item : StreamItem)
    : bool :=
  match classify json_loads item with
  | Delta _ => true
  | _ => false
  end.

(** Two worlds that differ at most in the diagnostic log. *)
Definition same_but_log (w1 w2 : World) : Prop :=
  messages w1 = messages w2 /\ suggestions w1 = suggestions w2 /\
  shown w1 = shown w2 /\ errors_shown w1 = errors_shown w2 /\
  sent w1 = sent w2.

Definition add_log (w : World) (l : list LogEntry) : World :=
  mkWorld (messages w) (suggestions w) (shown w) (errors_shown w)
    (log w ++ l) (sent w).

(** The three records written for a line whose payload does not decode. *)
Definition malformed_log (d : str) : list LogEntry :=
  [ErrorJSONDecoding; ErrorFailedToDecodeLine d; ErrorRawResponseContent d].

Definition add_shown (w : World) (l : list str) : World :=
  mkWorld (messages w) (suggestions w) (shown w ++ l) (errors_shown w)
    (log w) (sent w).

(** The result and the final world that the classified items stand for,
    from a starting text [full]. *)
Definition summary_result (full : str) (ks : list LineKind) : result str :=
  match stream_end ks with
  | Failed e => Raise e
  | _ => Ok (full ++ List.concat (deltas ks))
  end.

Definition summary_world (full : str) (ks : list LineKind) (w : World)
    : World :=
  add_log (add_shown w (prefixes full (deltas ks))) (stream_log ks).

Definition add_sent (w : World) (p : Payload) : World :=
  mkWorld (messages w) (suggestions w) (shown w) (errors_shown w)
    (log w) (sent w ++ [p]).

Definition add_error (w : World) (e : exn) : World :=
  mkWorld (messages w) (suggestions w) (shown w) (errors_shown w ++ [e])
    (log w) (sent w).

(** The world after [make_request] on [p]. *)
Definition requested (requests_post : Payload -> option Response)
    (p : Payload) (w : World) : World :=
  match requests_post p with
  | Some _ => add_sent w p
  | None => add_log (add_sent w p) [ErrorMakingRequest]
  end.

(** The world after the final text is logged and appended to the log. *)
Definition committed (text : str) (w : World) : World :=
  mkWorld (messages w ++ [mkMessage assistant text]) (suggestions w)
    (shown w) (errors_shown w) (log w ++ [InfoFinalResponse text]) (sent w).

(** ** Follow-up values *)

Definition is_string (v : JSON) : bool :=
  match v with
  | JStr _ => true
  | _ => false
  end.

Definition is_blank (s : str) : bool :=
  match strip s with
  | [] => true
  | _ => false
  end.

(** The string values of a dict, in key order. *)
Fixpoint strings_of (vs : list JSON) : list str :=
  match vs with
  | [] => []
  | JStr s :: vs' => s :: strings_of vs'
  | _ :: vs' => strings_of vs'
  end.

Definition nonblank_values (d : list (str * JSON)) : list str :=
  filter (fun s => negb (is_blank s)) (strings_of (dict_values d)).

Definition looks_like_object (content : str) : bool :=
  startswith content (lit "{") && endswith content (lit "}").

(** ** Example data *)

(** A JSON text written with single quotes standing for double quotes. *)
Definition json_text (s : string) : str :=
  map (fun c => if (c =? 39)%N then 34%N else c) (lit s).

(** The body [{"choices": [{"message": {"content": content}}]}]. *)
Definition completion (content : JSON) : JSON :=
  JObj [(lit "choices",
         JArr [JObj [(lit "message", JObj [(lit "content", content)])]])].

Definition buffered (body : JSON) : Response := mkResponse 200 (Some body) [].

Definition streamed (lines : list string) : Response :=
  mkResponse 200 None (map (fun l => Line (Utf8 (json_text l))) lines).

Definition empty_world : World := mkWorld [] [] [] [] [] [].

(** A transport that answers a streaming request with [s] and a buffered
    request with [b]. *)
Definition transport (s b : option Response) (p : Payload)
    : option Response :=
  if p_stream p then s else b.

Definition delta_line (chunk : string) : string :=
  ("data: {'choices':[{'delta':{'content':'" ++ chunk ++ "'}}]}")%string.

(** The chunks [Hel], [lo, ], [world], then the sentinel. *)
Definition hello_body : list StreamItem :=
  iter_lines (streamed [delta_line "Hel"; delta_line "lo, "; delta_line "world"]).

Definition hello_stream : Response :=
  mkResponse 200 None (hello_body ++ [Line (Utf8 DONE_LINE)]).

(** A delta whose content is [null], then the sentinel. *)
Definition null_delta_stream : Response :=
  streamed ["data: {'choices':[{'delta':{'content':null}}]}"; "data: [DONE]"]%string.

(** [Hel], then the connection breaks. *)
Definition broken_stream : Response :=
  mkResponse 200 None
    (iter_lines (streamed [delta_line "Hel"]) ++ [TransportFailure]).

(** A line that is neither the sentinel nor JSON, between two deltas. *)
Definition garbled_line : str := lit "data: {oops".

Definition follow_up_of (content : string) : Response :=
  buffered (completion (JStr (json_text content))).

Definition three_questions : string := "{'q1':'A?','q2':'','q3':'B?'}".
Definition five_questions : string :=
  "{'q1':'A','q2':'B','q3':'C','q4':'D','q5':'E'}".
Definition number_question : string := "{'q1': 1}".

(** A message of 3585 one-letter words: alone it costs more than the
    budget leaves after the margin. *)
Definition long_message : Message :=
  mkMessage user (List.concat (repeat (lit "w ") 3585)).

(** A session whose log holds the user message [Hi]. *)
Definition hi_world : World :=
  mkWorld [mkMessage user (lit "Hi")] [] [] [] [] [].

(** ** More example data *)

(** A response with a server-error status whose body is not JSON. *)
Definition server_error : Response :=
  mkResponse 503 None (iter_lines (streamed [delta_line "never read"])).

(** A completion body whose first choice carries [content]. *)
Definition greeting_body : JSON :=
  JObj [(lit "id", JStr (lit "gen-1"));
        (lit "choices",
         JArr [JObj [(lit "message",
                      JObj [(lit "role", JStr (lit "assistant"));
                            (lit "content", JStr (lit "Welcome!"))])];
               JObj [(lit "message",
                      JObj [(lit "content", JStr (lit "second choice"))])]])].

(** A body that is not JSON, under a success status. *)
Definition html_page : Response := mkResponse 200 None [].

(** A server-sent comment line, as sent to keep the connection alive. *)
Definition keepalive_line : str := lit ": OPENROUTER PROCESSING".

(** A chunk that only announces the role. *)
Definition role_only_line : str :=
  json_text "data: {'choices':[{'delta':{'role':'assistant'}}]}".

(** A chunk with an empty list of choices. *)
Definition usage_line : str :=
  json_text "data: {'choices':[],'usage':{'total_tokens':7}}".

Definition two_messages : list Message :=
  [mkMessage user (lit "Hi"); mkMessage assistant (lit "Hi there!")].

(** A session that still shows a suggestion from the previous turn. *)
Definition stale_world : World :=
  mkWorld [mkMessage user (lit "Hi")] [lit "Old suggestion?"] [] [] [] [].

(** A stream with a comment line and an empty line between two deltas. *)
Definition noisy_body (extra : list StreamItem) : list StreamItem :=
  iter_lines (streamed [delta_line "Hel"]) ++ extra
  ++ iter_lines (streamed [delta_line "lo"]).

(** ** The reference decoder on the texts of the examples *)

Example decode_three_questions :
  json_loads_ref (json_text three_questions)
  = Some (JObj [(lit "q1", JStr (lit "A?")); (lit "q2", JStr []);
                (lit "q3", JStr (lit "B?"))]).
Proof. vm_compute. reflexivity. Qed.

Example decode_number_question :
  json_loads_ref (json_text number_question) = Some (JObj [(lit "q1", JInt 1)]).
Proof. vm_compute. reflexivity. Qed.

Example decode_delta :
  json_loads_ref (skipn (List.length DATA_PREFIX) (json_text (delta_line "Hel")))
  = Some (JObj [(lit "choices",
                 JArr [JObj [(lit "delta",
                              JObj [(lit "content", JStr (lit "Hel"))])]])]).
Proof. vm_compute. reflexivity. Qed.

Example decode_rejects :
  json_loads_ref (lit "[DONE]") = None /\
  json_loads_ref (lit "not json") = None /\
  json_loads_ref (lit "{oops") = None /\
  json_loads_ref (lit "[1,]") = None /\
  json_loads_ref (lit "01") = None /\
  json_loads_ref [] = None.
Proof. vm_compute. auto 6. Qed.

(** A repeated key keeps its first position and takes its last value. *)
Example decode_repeated_key :
  json_loads_ref (json_text "{'a':1,'b':2,'a':3}")
  = Some (JObj [(lit "a", JInt 3); (lit "b", JInt 2)]).
Proof. vm_compute. reflexivity. Qed.

Example split_words :
  split (lit "  hello   world ") = [lit "hello"; lit "world"] /\
  strip (lit "  hello   world ") = lit "hello   world" /\
  split [] = [] /\ strip (lit "   ") = [].
Proof. vm_compute. auto. Qed.

(** ** Properties of the history window *)

Section Window.

Variables max_tokens margin : Z.

Lemma message_tokens_nonneg (m : Message) : 0 <= message_tokens m.
Proof. unfold message_tokens. lia. Qed.

Lemma cost_nonneg (l : list Message) : 0 <= cost l.
Proof.
  induction l as [|m l IH]; simpl.
  - lia.
  - pose proof (message_tokens_nonneg m). lia.
Qed.

Lemma cost_app (l1 l2 : list Message) : cost (l1 ++ l2) = cost l1 + cost l2.
Proof. induction l1 as [|m l1 IH]; simpl; lia. Qed.

Lemma cost_rev (l : list Message) : cost (rev l) = cost l.
Proof.
  induction l as [|m l IH]; simpl; [reflexivity|].
  rewrite cost_app, IH. simpl. lia.
Qed.

Lemma cost_In (m : Message) (l : list Message) :
  In m l -> message_tokens m <= cost l.
Proof.
  induction l as [|x l IH]; simpl; [tauto|].
  intros [->|H].
  - pose proof (cost_nonneg l). lia.
  - pose proof (message_tokens_nonneg x). specialize (IH H). lia.
Qed.

(** What the loop has done when it returns: it took a prefix [taken] of the
    reversed log, put it (re-reversed) in front of the accumulator, added its
    cost to the running total, stayed within the budget, and stopped either at
    the end or at a message that does not fit. *)
Lemma truncate_loop_spec (todo : list Message) :
  forall total acc,
    (acc = [] \/ total + margin <= max_tokens) ->
    exists taken rest,
      todo = taken ++ rest /\
      truncate_loop max_tokens margin todo total acc = rev taken ++ acc /\
      (taken = [] /\ acc = [] \/ total + cost taken + margin <= max_tokens) /\
      (rest = [] \/
       exists m rest', rest = m :: rest' /\
         max_tokens < total + cost taken + message_tokens m + margin).
Proof.
  induction todo as [|m todo IH]; intros total acc Hacc.
  - exists [], []. simpl. repeat split; auto.
    destruct Hacc as [->|H]; [left; auto | right; lia].
  - simpl. destruct (Z.leb_spec (total + message_tokens m + margin) max_tokens)
      as [Hle|Hgt].
    + destruct (IH (total + message_tokens m) (m :: acc)) as
        (taken & rest & -> & Heq & Hb & Hr); [right; exact Hle|].
      exists (m :: taken), rest. simpl. repeat split.
      * rewrite Heq, <- app_assoc. reflexivity.
      * right. destruct Hb as [[_ Hn]|Hb]; [discriminate|lia].
      * destruct Hr as [->|(m' & rest' & -> & Hr)]; [left; auto|].
        right. exists m', rest'. split; [reflexivity|lia].
    + exists [], (m :: todo). simpl. repeat split; auto.
      * destruct Hacc as [->|H]; [left; auto | right; lia].
      * right. exists m, todo. split; [reflexivity|lia].
Qed.

(** The window is a suffix of the log, within budget unless it is empty, and
    maximal: the message just before it, if any, does not fit. *)
Lemma truncate_with_spec (messages : list Message) :
  exists older,
    messages = older ++ truncate_with max_tokens margin messages /\
    (truncate_with max_tokens margin messages = [] \/
     cost (truncate_with max_tokens margin messages) + margin <= max_tokens) /\
    (older = [] \/
     exists older' m, older = older' ++ [m] /\
       max_tokens <
       cost (truncate_with max_tokens margin messages) + message_tokens m + margin).
Proof.
  unfold truncate_with.
  destruct (truncate_loop_spec (rev messages) 0 [] (or_introl eq_refl))
    as (taken & rest & Hsplit & Heq & Hb & Hr).
  rewrite Heq, app_nil_r.
  exists (rev rest). repeat split.
  - rewrite <- rev_app_distr, <- Hsplit, rev_involutive. reflexivity.
  - destruct Hb as [[-> _]|Hb]; [left; reflexivity|right].
    rewrite cost_rev. lia.
  - destruct Hr as [->|(m & rest' & -> & Hr)]; [left; reflexivity|right].
    exists (rev rest'), m. simpl. split; [reflexivity|].
    rewrite cost_rev. lia.
Qed.

(** A window that already fits is returned unchanged. *)
Lemma truncate_loop_fits (todo : list Message) :
  forall total acc,
    total + cost todo + margin <= max_tokens ->
    truncate_loop max_tokens margin todo total acc = rev todo ++ acc.
Proof.
  induction todo as [|m todo IH]; intros total acc H; simpl in *.
  - reflexivity.
  - pose proof (cost_nonneg todo). pose proof (message_tokens_nonneg m).
    destruct (Z.leb_spec (total + message_tokens m + margin) max_tokens); [|lia].
    rewrite IH by lia. rewrite <- app_assoc. reflexivity.
Qed.

Lemma truncate_with_fits (l : list Message) :
  cost l + margin <= max_tokens -> truncate_with max_tokens margin l = l.
Proof.
  intros H. unfold truncate_with.
  rewrite truncate_loop_fits by (rewrite cost_rev; lia).
  rewrite rev_involutive, app_nil_r. reflexivity.
Qed.

Lemma truncate_with_idempotent (l : list Message) :
  truncate_with max_tokens margin (truncate_with max_tokens margin l)
  = truncate_with max_tokens margin l.
Proof.
  destruct (truncate_with_spec l) as (older & _ & [He|Hb] & _).
  - rewrite He. reflexivity.
  - apply truncate_with_fits. exact Hb.
Qed.

End Window.

(** ** The stream loop *)

Section Stream.

Variable json_loads : str -> option JSON.

Lemma add_log_nil (w : World) : add_log w [] = w.
Proof. destruct w. unfold add_log. simpl. rewrite app_nil_r. reflexivity. Qed.

Lemma add_shown_nil (w : World) : add_shown w [] = w.
Proof. destruct w. unfold add_shown. simpl. rewrite app_nil_r. reflexivity. Qed.

Lemma add_log_app (w : World) (l1 l2 : list LogEntry) :
  add_log (add_log w l1) l2 = add_log w (l1 ++ l2).
Proof. unfold add_log. simpl. rewrite app_assoc. reflexivity. Qed.

Lemma add_shown_app (w : World) (l1 l2 : list str) :
  add_shown (add_shown w l1) l2 = add_shown w (l1 ++ l2).
Proof. unfold add_shown. simpl. rewrite app_assoc. reflexivity. Qed.

Lemma add_log_shown (w : World) (l : list LogEntry) (s : list str) :
  add_log (add_shown w s) l = add_shown (add_log w l) s.
Proof. reflexivity. Qed.

(** What the block for one [data: ] line does, by the outcome of its [try]
    body. *)
Lemma handle_data_line_eq (d full : str) (w : World) :
  handle_data_line json_loads d full w =
  match delta_of json_loads d with
  | Ok None => (Ok full, w)
  | Ok (Some (JStr t)) => (Ok (full ++ t), add_shown w [full ++ t])
  | Ok (Some _) => (Raise TypeError, w)
  | Raise JSONDecodeError => (Ok full, add_log w (malformed_log d))
  | Raise e => (Raise e, w)
  end.
Proof.
  unfold handle_data_line, try_except, bind, lift.
  destruct (delta_of json_loads d) as [[v|]|e].
  - destruct v; reflexivity.
  - reflexivity.
  - destruct e; try reflexivity.
    destruct w. unfold add_log, logging, ret. simpl.
    rewrite <- !app_assoc. reflexivity.
Qed.

Lemma stream_loop_line (d : str) (rest : list StreamItem) (full : str) :
  d <> [] ->
  stream_loop json_loads (Line (Utf8 d) :: rest) full =
  if str_eqb d DONE_LINE
  then bind (logging InfoStreamCompleted) (fun _ => ret full)
  else if startswith d DATA_PREFIX
  then bind (handle_data_line json_loads d full) (stream_loop json_loads rest)
  else stream_loop json_loads rest full.
Proof. destruct d; [congruence|reflexivity]. Qed.

Lemma classify_line (d : str) :
  d <> [] ->
  classify json_loads (Line (Utf8 d)) =
  if str_eqb d DONE_LINE then Sentinel
  else if startswith d DATA_PREFIX then
    match delta_of json_loads d with
    | Ok None => Ignored
    | Ok (Some (JStr t)) => Delta t
    | Ok (Some _) => Broken TypeError
    | Raise JSONDecodeError => Malformed d
    | Raise e => Broken e
    end
  else Ignored.
Proof. destruct d; [congruence|reflexivity]. Qed.

(** The loop does what the classified items say: it ends as [stream_end]
    says, returns the starting text followed by the deltas in order, shows
    one growing text per delta, and writes the log records of the malformed
    lines and of the sentinel. *)
Lemma stream_loop_summary (items : list StreamItem) :
  forall (full : str) (w : World),
    stream_loop json_loads items full w =
    (summary_result full (map (classify json_loads) items),
     summary_world full (map (classify json_loads) items) w).
Proof.
  unfold summary_result, summary_world.
  induction items as [|item items IH]; intros full w.
  - simpl. rewrite app_nil_r, add_shown_nil, add_log_nil. reflexivity.
  - destruct item as [[d|]|].
    + destruct d as [|c d'].
      * simpl. apply IH.
      * remember (c :: d') as d eqn:Hd.
        assert (Hne : d <> []) by (subst; discriminate).
        rewrite stream_loop_line by exact Hne.
        rewrite map_cons, classify_line by exact Hne.
        destruct (str_eqb d DONE_LINE).
        { simpl. rewrite app_nil_r, add_shown_nil. reflexivity. }
        destruct (startswith d DATA_PREFIX); [|simpl; apply IH].
        unfold bind. rewrite handle_data_line_eq.
        destruct (delta_of json_loads d) as [[v|]|e].
        -- destruct v; simpl;
             try (rewrite add_shown_nil, add_log_nil; reflexivity).
           rewrite IH, add_shown_app, <- app_assoc. reflexivity.
        -- simpl. apply IH.
        -- destruct e; simpl;
             try (rewrite add_shown_nil, add_log_nil; reflexivity).
           rewrite IH. rewrite <- add_log_shown, add_log_app. reflexivity.
    + simpl. rewrite add_shown_nil, add_log_nil. reflexivity.
    + simpl. rewrite add_shown_nil, add_log_nil. reflexivity.
Qed.

Lemma prefixes_length (full : str) (ds : list str) :
  List.length (prefixes full ds) = List.length ds.
Proof.
  revert full. induction ds as [|t ds IH]; intros full; simpl;
    [reflexivity | rewrite IH; reflexivity].
Qed.

Lemma prefixes_growing (full : str) (ds : list str) :
  growing full (prefixes full ds).
Proof.
  revert full. induction ds as [|t ds IH]; intros full; simpl.
  - exact I.
  - split; [exists t; reflexivity | apply IH].
Qed.

(** Items that are all handled and hold no sentinel are all folded in. *)
Lemma stream_end_handled (body : list StreamItem) (ks : list LineKind) :
  forallb (handled json_loads) body = true ->
  forallb (fun i => negb (is_sentinel i)) body = true ->
  stream_end (map (classify json_loads) body ++ ks) = stream_end ks /\
  deltas (map (classify json_loads) body ++ ks)
  = deltas (map (classify json_loads) body) ++ deltas ks /\
  stream_log (map (classify json_loads) body ++ ks)
  = stream_log (map (classify json_loads) body) ++ stream_log ks.
Proof.
  induction body as [|item body IH]; intros Hh Hs; simpl in *.
  - auto.
  - apply andb_prop in Hh as [Hh1 Hh2]. apply andb_prop in Hs as [Hs1 Hs2].
    destruct (IH Hh2 Hs2) as (IH1 & IH2 & IH3).
    unfold handled in Hh1.
    assert (Hns : classify json_loads item <> Sentinel).
    { destruct item as [[d|]|]; try discriminate.
      destruct d as [|c d']; [discriminate|].
      rewrite classify_line by discriminate.
      unfold is_sentinel in Hs1.
      destruct (str_eqb (c :: d') DONE_LINE); [discriminate|].
      destruct (startswith (c :: d') DATA_PREFIX); [|discriminate].
      destruct (delta_of json_loads (c :: d')) as [[v|]|e];
        [destruct v | | destruct e]; discriminate. }
    destruct (classify json_loads item); try discriminate; try congruence;
      simpl; rewrite ?IH1, ?IH2, ?IH3; auto.
Qed.

End Stream.

(** ** The calls around the loop *)

Section Calls.

Variable json_loads : str -> option JSON.
Variable requests_post : Payload -> option Response.

Lemma make_request_eq (p : Payload) (w : World) :
  make_request requests_post p w
  = (Ok (requests_post p), requested requests_post p w).
Proof.
  unfold make_request, requested, bind, record_sent, logging, ret.
  destruct (requests_post p); reflexivity.
Qed.

(** The block that folds the stream, by how the stream ends. *)
Lemma assemble_streamed (r : Response) (w : World) :
  ok r = true ->
  assemble json_loads (Some r) w =
  let ks := map (classify json_loads) (iter_lines r) in
  match stream_end ks with
  | Failed e =>
      if catches_request e
      then (Ok ERROR_TEXT,
            add_log (add_error (summary_world [] ks w) e) [ErrorOccurred])
      else (Raise e, summary_world [] ks w)
  | _ => (Ok (List.concat (deltas ks)), summary_world [] ks w)
  end.
Proof.
  intros Hok. unfold assemble. rewrite Hok.
  unfold try_except. rewrite stream_loop_summary.
  unfold summary_result. simpl.
  destruct (stream_end (map (classify json_loads) (iter_lines r)))
    as [| |e]; try reflexivity;
    destruct (catches_request e); reflexivity.
Qed.

Lemma assemble_no_stream (response : option Response) (w : World) :
  response_truthy response = false ->
  assemble json_loads response w = (Ok [], w).
Proof.
  unfold assemble, response_truthy. destruct response as [r|]; [|reflexivity].
  intros ->. reflexivity.
Qed.

Lemma summary_world_messages (full : str) (ks : list LineKind) (w : World) :
  messages (summary_world full ks w) = messages w.
Proof. reflexivity. Qed.

Lemma assemble_messages (response : option Response) (w : World) :
  messages (snd (assemble json_loads response w)) = messages w.
Proof.
  destruct (response_truthy response) eqn:Ht.
  - destruct response as [r|]; [|discriminate]. simpl in Ht.
    rewrite assemble_streamed by exact Ht. simpl.
    destruct (stream_end (map (classify json_loads) (iter_lines r)))
      as [| |e]; try reflexivity;
      destruct (catches_request e); reflexivity.
  - rewrite assemble_no_stream by exact Ht. reflexivity.
Qed.

(** [generate_follow_up_questions], case by case. *)
Lemma generate_follow_up_questions_eq (msgs : list Message) (w : World) :
  generate_follow_up_questions json_loads requests_post msgs w =
  let p := follow_up_payload msgs in
  let w0 := requested requests_post p w in
  match requests_post p with
  | None => (Ok [], w0)
  | Some r =>
      if ok r then
        match json r with
        | None => (Raise JSONDecodeError, w0)
        | Some data =>
            let w1 := add_log w0 [InfoFollowUpResponseData data] in
            match usable data with
            | Raise e => (Raise e, w1)
            | Ok false => (Ok [], w1)
            | Ok true =>
                match follow_up_try json_loads data with
                | Ok qs => (Ok qs, w1)
                | Raise e =>
                    if catches_follow_up e
                    then (Ok [], add_log w1 [ErrorParsingFollowUp e])
                    else (Raise e, w1)
                end
            end
        end
      else (Ok [], w0)
  end.
Proof.
  unfold generate_follow_up_questions, bind. rewrite make_request_eq.
  simpl. destruct (requests_post (follow_up_payload msgs)) as [r|];
    [|reflexivity].
  destruct (ok r); [|reflexivity].
  unfold response_json, lift. destruct (json r) as [data|]; [|reflexivity].
  simpl. destruct (usable data) as [[|]|e]; try reflexivity.
  all: unfold try_except; destruct (follow_up_try json_loads data) as [qs|e'];
    [reflexivity|]; destruct (catches_follow_up e'); reflexivity.
Qed.

(** The synthesizer never touches the conversation log or the display, and
    sends exactly one request. *)
Lemma generate_follow_up_questions_frame (msgs : list Message) (w : World) :
  let w' := snd (generate_follow_up_questions json_loads requests_post msgs w) in
  messages w' = messages w /\ shown w' = shown w /\
  errors_shown w' = errors_shown w /\ suggestions w' = suggestions w /\
  sent w' = sent w ++ [follow_up_payload msgs].
Proof.
  rewrite generate_follow_up_questions_eq. unfold requested. simpl.
  destruct (requests_post (follow_up_payload msgs)) as [r|];
    [|simpl; auto 6].
  destruct (ok r); [|simpl; auto 6].
  destruct (json r) as [data|]; [|simpl; auto 6].
  destruct (usable data) as [[|]|e]; try (simpl; auto 6).
  destruct (follow_up_try json_loads data) as [qs|e]; [simpl; auto 6|].
  destruct (catches_follow_up e); simpl; auto 6.
Qed.

(** [process_llm_response]: request, fold, commit, then the synthesizer on
    the updated log. *)
Lemma process_llm_response_eq (msgs : list Message) (w : World) :
  process_llm_response json_loads requests_post msgs w =
  let p := stream_payload msgs in
  let w0 := requested requests_post p (add_log w [InfoPayload p]) in
  match assemble json_loads (requests_post p) w0 with
  | (Ok text, w1) =>
      bind (generate_follow_up_questions json_loads requests_post
              (messages w1 ++ [mkMessage assistant text]))
           set_suggestions (committed text w1)
  | (Raise e, w1) => (Raise e, w1)
  end.
Proof.
  unfold process_llm_response.
  unfold bind at 1. unfold logging at 1.
  unfold bind at 1. rewrite make_request_eq.
  unfold bind at 1. cbv zeta.
  change (mkWorld (messages w) (suggestions w) (shown w) (errors_shown w)
            (log w ++ [InfoPayload (stream_payload msgs)]) (sent w))
    with (add_log w [InfoPayload (stream_payload msgs)]).
  destruct (assemble json_loads (requests_post (stream_payload msgs))
              (requested requests_post (stream_payload msgs)
                 (add_log w [InfoPayload (stream_payload msgs)])))
    as [[text|e] w1]; reflexivity.
Qed.

Lemma process_llm_response_messages (msgs : list Message) (w : World)
    (text : str) (w1 : World) :
  assemble json_loads (requests_post (stream_payload msgs))
    (requested requests_post (stream_payload msgs)
       (add_log w [InfoPayload (stream_payload msgs)])) = (Ok text, w1) ->
  messages (snd (process_llm_response json_loads requests_post msgs w))
  = messages w ++ [mkMessage assistant text].
Proof.
  intros Ha. rewrite process_llm_response_eq. cbv zeta. rewrite Ha.
  pose proof (assemble_messages (requests_post (stream_payload msgs))
    (requested requests_post (stream_payload msgs)
       (add_log w [InfoPayload (stream_payload msgs)]))) as Hm.
  rewrite Ha in Hm. simpl in Hm.
  assert (Hw : messages w1 = messages w).
  { rewrite Hm. unfold requested.
    destruct (requests_post (stream_payload msgs)); reflexivity. }
  unfold bind.
  destruct (generate_follow_up_questions_frame
              (messages w1 ++ [mkMessage assistant text]) (committed text w1))
    as (Hf & _).
  destruct (generate_follow_up_questions json_loads requests_post
              (messages w1 ++ [mkMessage assistant text]) (committed text w1))
    as [[qs|e] w2]; simpl in *; rewrite Hf, Hw; reflexivity.
Qed.

End Calls.

(** ** The follow-up synthesizer *)

Section FollowUp.

Variable json_loads : str -> option JSON.

Lemma questions_of_strings (vs : list JSON) :
  forallb is_string vs = true ->
  questions_of vs
  = Ok (filter (fun s => negb (is_blank s)) (strings_of vs)).
Proof.
  induction vs as [|v vs IH]; intros H; simpl in *.
  - reflexivity.
  - apply andb_prop in H as [Hv Hvs]. destruct v; try discriminate.
    rewrite (IH Hvs). unfold is_blank. simpl.
    destruct (strip s); reflexivity.
Qed.

Lemma questions_of_length (vs : list JSON) :
  forall qs, questions_of vs = Ok qs ->
    (List.length qs <= List.length vs)%nat.
Proof.
  induction vs as [|v vs IH]; intros qs H; simpl in *.
  - injection H as <-. simpl. lia.
  - destruct v; try discriminate.
    destruct (questions_of vs) as [qs'|e]; [|discriminate].
    specialize (IH qs' eq_refl).
    destruct (strip s); injection H as <-; simpl; lia.
Qed.

(** A value that is not a string stops the comprehension with
    [AttributeError]. *)
Lemma questions_of_not_strings (vs : list JSON) :
  forallb is_string vs = false -> questions_of vs = Raise AttributeError.
Proof.
  induction vs as [|v vs IH]; intros H; simpl in *.
  - discriminate.
  - destruct v; try reflexivity. simpl in H. rewrite (IH H). reflexivity.
Qed.

(** A body that has a content is a usable body. *)
Lemma message_content_usable (data v : JSON) :
  message_content data = Ok v -> usable data = Ok true.
Proof.
  unfold message_content, usable, choices_present, rbind.
  destruct data; try discriminate. unfold getitem, contains.
  destruct (dict_get fields (lit "choices")) as [c|] eqn:Hc; [|discriminate].
  assert (Ht : truthy (JObj fields) = true).
  { destruct fields; [discriminate Hc | reflexivity]. }
  rewrite Ht. intros H.
  destruct c; try discriminate H.
  - destruct s; [discriminate H | reflexivity].
  - destruct items; [discriminate H | reflexivity].
Qed.

(** The [try] block once the content is known to be a string. *)
Lemma follow_up_try_eq (data : JSON) (content : str) :
  message_content data = Ok (JStr content) ->
  follow_up_try json_loads data =
  if looks_like_object (strip content) then
    match json_loads (strip content) with
    | None => Raise JSONDecodeError
    | Some v =>
        match values_method v with
        | Ok vs => questions_of vs
        | Raise e => Raise e
        end
    end
  else Ok [].
Proof.
  intros H. unfold follow_up_try. rewrite H.
  cbn [rbind strip_method]. unfold looks_like_object.
  destruct (startswith (strip content) (lit "{")
            && endswith (strip content) (lit "}")); [|reflexivity].
  unfold loads. destruct (json_loads (strip content)) as [v|]; [|reflexivity].
  cbn [rbind]. destruct (values_method v) as [vs|e]; [|reflexivity].
  cbn [rbind]. destruct (questions_of vs) as [[|q qs]|e]; reflexivity.
Qed.

(** What a returned list can be: empty, or drawn from a decoded object. *)
Lemma follow_up_try_inv (data : JSON) (qs : list str) :
  follow_up_try json_loads data = Ok qs ->
  qs = [] \/
  exists content d,
    message_content data = Ok (JStr content) /\
    json_loads (strip content) = Some (JObj d) /\
    questions_of (dict_values d) = Ok qs.
Proof.
  destruct (message_content data) as [v|e] eqn:Hm.
  - destruct v as [| | | |content| |];
      try (unfold follow_up_try; rewrite Hm; discriminate).
    rewrite (follow_up_try_eq _ _ Hm).
    destruct (looks_like_object (strip content));
      [|intros H; injection H as <-; left; reflexivity].
    destruct (json_loads (strip content)) as [v|] eqn:Hl; [|discriminate].
    destruct v as [| | | | | |d]; try discriminate.
    simpl. intros H. right. exists content, d. auto.
  - unfold follow_up_try. rewrite Hm. discriminate.
Qed.

End FollowUp.

(** ** The history window *)

Lemma truncate_messages_single (m : Message) :
  truncate_messages [m]
  = if message_tokens m + TOKEN_MARGIN <=? MAX_TOKENS then [m] else [].
Proof.
  unfold truncate_messages, truncate_with. simpl.
  destruct (message_tokens m + TOKEN_MARGIN <=? MAX_TOKENS); reflexivity.
Qed.

Lemma truncate_messages_within_budget (L : list Message) :
  cost (truncate_messages L) + TOKEN_MARGIN <= MAX_TOKENS.
Proof.
  unfold truncate_messages.
  destruct (truncate_with_spec MAX_TOKENS TOKEN_MARGIN L)
    as (older & _ & [He|Hb] & _).
  - rewrite He. unfold TOKEN_MARGIN, MAX_TOKENS. simpl. lia.
  - exact Hb.
Qed.

(** C1: for every conversation log [L], [truncate_messages L] is a contiguous
    suffix of [L] in the original order whose cumulative whitespace-word cost
    plus the fixed margin does not exceed the maximum token budget; every
    message in it fits the budget on its own, so a message whose own cost
    plus margin exceeds the budget is never included, not even when it is the
    only message, where the result is empty; and the window is maximal: the
    message just before it, if there is one, would break the budget. *)
Theorem C1_truncate_suffix_within_budget (L : list Message) :
  exists older,
    L = older ++ truncate_messages L /\
    cost (truncate_messages L) + TOKEN_MARGIN <= MAX_TOKENS /\
    Forall (fun m => message_tokens m + TOKEN_MARGIN <= MAX_TOKENS)
      (truncate_messages L) /\
    (forall m, truncate_messages [m]
       = if message_tokens m + TOKEN_MARGIN <=? MAX_TOKENS then [m] else []) /\
    (older = [] \/
     exists older' m,
       older = older' ++ [m] /\
       MAX_TOKENS < cost (truncate_messages L) + message_tokens m + TOKEN_MARGIN).
Proof.
  pose proof (truncate_messages_within_budget L) as Hb.
  destruct (truncate_with_spec MAX_TOKENS TOKEN_MARGIN L)
    as (older & Hs & _ & Hm).
  exists older. fold (truncate_messages L) in Hs, Hm.
  split; [exact Hs|]. split; [exact Hb|]. split; [|split].
  - apply Forall_forall. intros m Hin.
    pose proof (cost_In m _ Hin). lia.
  - apply truncate_messages_single.
  - exact Hm.
Qed.

(** A message of 3585 words is dropped even when it is the whole log. *)
Example truncate_long_message_alone : truncate_messages [long_message] = [].
Proof. vm_compute. reflexivity. Qed.

(** C7: truncation is idempotent: truncating an already truncated window
    under the same budget and margin returns the same window. *)
Theorem C7_truncate_idempotent (L : list Message) :
  truncate_messages (truncate_messages L) = truncate_messages L.
Proof. apply truncate_with_idempotent. Qed.

(** ** The welcome-message fallback *)

Lemma usable_without_choices (d : list (str * JSON)) :
  dict_get d (lit "choices") = None \/
  dict_get d (lit "choices") = Some (JArr []) ->
  usable (JObj d) = Ok false.
Proof.
  intros H. unfold usable.
  destruct (truthy (JObj d)); [|reflexivity].
  unfold choices_present, contains, getitem, rbind.
  destruct H as [-> | ->]; reflexivity.
Qed.

Lemma log_and_return_response_fallback (r : Response)
    (d : list (str * JSON)) (w : World) :
  ok r = true ->
  json r = Some (JObj d) ->
  dict_get d (lit "choices") = None \/
  dict_get d (lit "choices") = Some (JArr []) ->
  log_and_return_response r w
  = (Ok (JStr FALLBACK_GREETING),
     add_log w [InfoResponseData (JObj d); ErrorNoValidResponse]).
Proof.
  intros Hok Hj Hd. unfold ok in Hok. apply negb_true_iff in Hok.
  unfold log_and_return_response, bind, lift, response_json.
  rewrite Hok, Hj. simpl. rewrite (usable_without_choices d Hd).
  destruct w. unfold add_log. simpl. rewrite <- app_assoc. reflexivity.
Qed.

(** C8: a buffered response whose JSON body is an object without a
    [choices] key, or with an empty [choices] list, makes the caller return
    exactly the fixed fallback greeting. *)
Theorem C8_fallback_greeting (requests_post : Payload -> option Response)
    (w : World) (r : Response) (d : list (str * JSON)) :
  requests_post initial_payload = Some r ->
  json r = Some (JObj d) ->
  dict_get d (lit "choices") = None \/
  dict_get d (lit "choices") = Some (JArr []) ->
  fst (generate_initial_message requests_post w)
  = Ok (JStr FALLBACK_GREETING).
Proof.
  intros Hp Hj Hd. unfold generate_initial_message, bind.
  rewrite make_request_eq, Hp.
  destruct (ok r) eqn:Hok; [|reflexivity].
  rewrite (log_and_return_response_fallback r d _ Hok Hj Hd). reflexivity.
Qed.

Lemma C8_fallback_greeting_witness :
  fst (generate_initial_message
         (fun _ => Some (buffered (JObj [(lit "error", JStr (lit "overloaded"))])))
         empty_world)
  = Ok (JStr FALLBACK_GREETING)
  /\
  fst (generate_initial_message
         (fun _ => Some (buffered (JObj [(lit "choices", JArr [])])))
         empty_world)
  = Ok (JStr FALLBACK_GREETING).
Proof.
  split.
  - apply (C8_fallback_greeting _ empty_world
             (buffered (JObj [(lit "error", JStr (lit "overloaded"))]))
             [(lit "error", JStr (lit "overloaded"))]).
    + reflexivity.
    + reflexivity.
    + left. reflexivity.
  - apply (C8_fallback_greeting _ empty_world
             (buffered (JObj [(lit "choices", JArr [])]))
             [(lit "choices", JArr [])]).
    + reflexivity.
    + reflexivity.
    + right. reflexivity.
Defined.

(** ** The response assembler *)

Section Assembler.

Variable json_loads : str -> option JSON.

Lemma classify_sentinel (item : StreamItem) :
  classify json_loads item = Sentinel -> is_sentinel item = true.
Proof.
  destruct item as [[d|]|]; try discriminate.
  destruct d as [|c d']; [discriminate|].
  rewrite classify_line by discriminate. unfold is_sentinel.
  destruct (str_eqb (c :: d') DONE_LINE); [reflexivity|].
  destruct (startswith (c :: d') DATA_PREFIX); [|discriminate].
  destruct (delta_of json_loads (c :: d')) as [[v|]|e];
    [destruct v | | destruct e]; discriminate.
Qed.

(** One text is shown per delta line. *)
Lemma deltas_count (body : list StreamItem) :
  forallb (handled json_loads) body = true ->
  forallb (fun i => negb (is_sentinel i)) body = true ->
  List.length (deltas (map (classify json_loads) body))
  = List.length (filter (is_delta json_loads) body).
Proof.
  induction body as [|item body IH]; intros Hh Hs; simpl in *.
  - reflexivity.
  - apply andb_prop in Hh as [Hh1 Hh2]. apply andb_prop in Hs as [Hs1 Hs2].
    specialize (IH Hh2 Hs2).
    pose proof (classify_sentinel item) as Hc.
    unfold handled in Hh1. unfold is_delta.
    destruct (classify json_loads item); try discriminate; simpl; auto.
    rewrite Hc in Hs1 by reflexivity. discriminate.
Qed.

Lemma sentinel_kind : classify json_loads (Line (Utf8 DONE_LINE)) = Sentinel.
Proof. reflexivity. Qed.

(** A malformed line changes neither the end of the run nor its deltas. *)
Lemma malformed_skip (ks1 ks2 : list LineKind) (d : str) :
  stream_end (ks1 ++ Malformed d :: ks2) = stream_end (ks1 ++ ks2) /\
  deltas (ks1 ++ Malformed d :: ks2) = deltas (ks1 ++ ks2).
Proof.
  induction ks1 as [|k ks1 [IH1 IH2]]; simpl.
  - auto.
  - destruct k; rewrite ?IH1, ?IH2; auto.
Qed.

Lemma delta_of_malformed (d : str) :
  json_loads (skipn (List.length DATA_PREFIX) d) = None ->
  delta_of json_loads d = Raise JSONDecodeError.
Proof. intros H. unfold delta_of, loads. rewrite H. reflexivity. Qed.

Lemma data_line_nonempty (d : str) :
  startswith d DATA_PREFIX = true -> d <> [].
Proof. intros H ->. discriminate H. Qed.

End Assembler.

(** X22: for every sequence of streamed lines ending in the end-of-stream
    sentinel, in which every line before the sentinel is handled without an
    exception (it decodes as UTF-8, and its payload, when it decodes as JSON,
    has the shapes the code indexes and a string content), the assembler's
    final text is the concatenation, in arrival order, of the delta
    contents, and the display sink is called exactly once per delta line,
    each time with a text that extends the one shown before. *)
Theorem X22_stream_assembly (json_loads : str -> option JSON)
    (status : Z) (js : option JSON) (body tail : list StreamItem)
    (w : World) :
  let r := mkResponse status js (body ++ Line (Utf8 DONE_LINE) :: tail) in
  ok r = true ->
  forallb (handled json_loads) body = true ->
  forallb (fun i => negb (is_sentinel i)) body = true ->
  let ds := deltas (map (classify json_loads) body) in
  fst (assemble json_loads (Some r) w) = Ok (List.concat ds) /\
  shown (snd (assemble json_loads (Some r) w)) = shown w ++ prefixes [] ds /\
  List.length (prefixes [] ds)
  = List.length (filter (is_delta json_loads) body) /\
  growing [] (prefixes [] ds).
Proof.
  intros r Hok Hh Hs ds.
  rewrite (assemble_streamed json_loads r w Hok). cbv zeta.
  subst r. cbn [iter_lines].
  rewrite map_app, map_cons, sentinel_kind.
  destruct (stream_end_handled json_loads body
              (Sentinel :: map (classify json_loads) tail) Hh Hs)
    as (He & Hd & _).
  unfold summary_world. rewrite He, Hd. cbn [stream_end deltas].
  rewrite app_nil_r.
  split; [reflexivity|]. split; [reflexivity|]. split.
  - rewrite prefixes_length. apply deltas_count; assumption.
  - apply prefixes_growing.
Qed.

Lemma X22_stream_assembly_witness :
  fst (assemble json_loads_ref (Some hello_stream) empty_world)
  = Ok (lit "Hello, world") /\
  shown (snd (assemble json_loads_ref (Some hello_stream) empty_world))
  = [lit "Hel"; lit "Hello, "; lit "Hello, world"] /\
  List.length (filter (is_delta json_loads_ref) hello_body) = 3%nat.
Proof.
  pose proof (X22_stream_assembly json_loads_ref 200 None hello_body []
                empty_world eq_refl eq_refl eq_refl) as H.
  cbv zeta in H. destruct H as (H1 & H2 & H3 & _).
  split; [exact H1|]. split; [exact H2|].
  rewrite <- H3. reflexivity.
Defined.

(** C2, the code at the failing input: a delta whose content is [null]
    decodes, passes the three membership tests, and then
    [full_response += None] raises [TypeError], which neither handler of the
    loop catches; the run has no final text, shows nothing and commits no
    message, where the concatenation of the delta contents received is the
    empty text. *)
Theorem C2_null_delta_content_raises :
  fst (assemble json_loads_ref (Some null_delta_stream) empty_world)
  = Raise TypeError /\
  fst (process_llm_response json_loads_ref
         (transport (Some null_delta_stream) None) [] empty_world)
  = Raise TypeError /\
  messages (snd (process_llm_response json_loads_ref
                   (transport (Some null_delta_stream) None) []
                   empty_world)) = [] /\
  shown (snd (process_llm_response json_loads_ref
                (transport (Some null_delta_stream) None) []
                empty_world)) = [].
Proof. vm_compute. auto. Qed.

(** C9: a streamed line that begins with [data: ] and whose remainder is
    not valid JSON (a data record, so not the end-of-stream sentinel, which
    is a line kind of its own and is tested first) is logged and skipped:
    the loop goes on with the lines after it from the same text, with
    nothing shown and three error records written, and the assembler's
    result and every effect but the log are what they would be with that
    line absent. *)
Theorem C9_malformed_line_skipped (json_loads : str -> option JSON)
    (d : str) (pre post : list StreamItem) (status : Z) (js : option JSON)
    (w : World) :
  startswith d DATA_PREFIX = true ->
  json_loads (skipn (List.length DATA_PREFIX) d) = None ->
  str_eqb d DONE_LINE = false ->
  let r1 := mkResponse status js (pre ++ Line (Utf8 d) :: post) in
  let r2 := mkResponse status js (pre ++ post) in
  (forall full w',
     stream_loop json_loads (Line (Utf8 d) :: post) full w'
     = stream_loop json_loads post full (add_log w' (malformed_log d))) /\
  fst (assemble json_loads (Some r1) w) = fst (assemble json_loads (Some r2) w) /\
  same_but_log (snd (assemble json_loads (Some r1) w))
               (snd (assemble json_loads (Some r2) w)).
Proof.
  intros Hp Hj Hd r1 r2.
  pose proof (data_line_nonempty d Hp) as Hne.
  pose proof (delta_of_malformed json_loads d Hj) as Hdelta.
  split.
  - intros full w'. rewrite stream_loop_line by exact Hne.
    rewrite Hd, Hp. unfold bind. rewrite handle_data_line_eq, Hdelta.
    reflexivity.
  - assert (Hk : classify json_loads (Line (Utf8 d)) = Malformed d).
    { rewrite classify_line by exact Hne. rewrite Hd, Hp, Hdelta. reflexivity. }
    destruct (ok r1) eqn:Hok.
    + assert (Hok2 : ok r2 = true) by exact Hok.
      rewrite (assemble_streamed json_loads r1 w Hok).
      rewrite (assemble_streamed json_loads r2 w Hok2).
      cbv zeta. subst r1 r2. cbn [iter_lines].
      rewrite !map_app, map_cons, Hk.
      destruct (malformed_skip (map (classify json_loads) pre)
                  (map (classify json_loads) post) d) as (He & Hds).
      unfold summary_world. rewrite He, Hds.
      destruct (stream_end (map (classify json_loads) pre
                            ++ map (classify json_loads) post)) as [| |e];
        try (split; [reflexivity | repeat split]).
      destruct (catches_request e);
        (split; [reflexivity | repeat split]).
    + assert (Hok2 : ok r2 = false) by exact Hok.
      unfold assemble. rewrite Hok, Hok2. split; [reflexivity | repeat split].
Qed.

Lemma C9_malformed_line_skipped_witness :
  let pre := iter_lines (streamed [delta_line "Hel"]) in
  let post := iter_lines (streamed [delta_line "lo"; "data: [DONE]"%string]) in
  fst (assemble json_loads_ref
         (Some (mkResponse 200 None (pre ++ Line (Utf8 garbled_line) :: post)))
         empty_world)
  = fst (assemble json_loads_ref (Some (mkResponse 200 None (pre ++ post)))
           empty_world)
  /\ fst (assemble json_loads_ref (Some (mkResponse 200 None (pre ++ post)))
            empty_world) = Ok (lit "Hello").
Proof.
  intros pre post. split.
  - apply (C9_malformed_line_skipped json_loads_ref garbled_line pre post
             200 None empty_world); reflexivity.
  - reflexivity.
Defined.

(** ** Committing the response *)

(** C3: for every streaming run that ends at the sentinel, at the natural
    close of the stream, or with a transport exception raised mid-stream,
    the assembler appends exactly one new assistant message to the
    conversation log; its content is the folded text, or, when a transport
    exception occurred, the fixed error string and not the partial buffer. *)
Theorem C3_one_assistant_message (json_loads : str -> option JSON)
    (requests_post : Payload -> option Response) (msgs : list Message)
    (w : World) (r : Response) :
  requests_post (stream_payload msgs) = Some r ->
  ok r = true ->
  let ks := map (classify json_loads) (iter_lines r) in
  stream_end ks = Closed \/ stream_end ks = AtSentinel \/
  stream_end ks = Failed RequestException ->
  messages (snd (process_llm_response json_loads requests_post msgs w))
  = messages w
    ++ [mkMessage assistant
          (match stream_end ks with
           | Failed _ => ERROR_TEXT
           | _ => List.concat (deltas ks)
           end)].
Proof.
  intros Hp Hok ks Hend.
  destruct Hend as [He | [He | He]]; rewrite He;
    eapply process_llm_response_messages;
    rewrite Hp, (assemble_streamed json_loads r _ Hok); cbv zeta; fold ks;
    rewrite He; reflexivity.
Qed.

Lemma C3_one_assistant_message_witness :
  messages (snd (process_llm_response json_loads_ref
                   (transport (Some hello_stream) None) [] empty_world))
  = [mkMessage assistant (lit "Hello, world")] /\
  messages (snd (process_llm_response json_loads_ref
                   (transport (Some broken_stream) None) [] empty_world))
  = [mkMessage assistant ERROR_TEXT].
Proof.
  split.
  - exact (C3_one_assistant_message json_loads_ref
             (transport (Some hello_stream) None) [] empty_world hello_stream
             eq_refl eq_refl (or_intror (or_introl eq_refl))).
  - exact (C3_one_assistant_message json_loads_ref
             (transport (Some broken_stream) None) [] empty_world
             broken_stream eq_refl eq_refl (or_intror (or_intror eq_refl))).
Defined.

(** C10: when the streaming request fails at the transport boundary and no
    handle is obtained, [process_llm_response] still appends exactly one
    assistant message, whose content is the empty string, and then runs the
    follow-up synthesizer on the updated log: the run is that of the
    synthesizer from the committed state, and the second request sent is the
    follow-up request built from the updated log. *)
Theorem C10_no_handle (json_loads : str -> option JSON)
    (requests_post : Payload -> option Response) (msgs : list Message)
    (w : World) :
  requests_post (stream_payload msgs) = None ->
  let updated := messages w ++ [mkMessage assistant []] in
  let run := process_llm_response json_loads requests_post msgs w in
  run = bind (generate_follow_up_questions json_loads requests_post updated)
          set_suggestions
          (committed []
             (requested requests_post (stream_payload msgs)
                (add_log w [InfoPayload (stream_payload msgs)]))) /\
  messages (snd run) = updated /\
  sent (snd run) = sent w ++ [stream_payload msgs; follow_up_payload updated] /\
  [] <> ERROR_TEXT /\ [] <> FALLBACK_GREETING.
Proof.
  intros Hp updated run. subst run updated.
  rewrite process_llm_response_eq. cbv zeta. rewrite Hp. cbn [assemble].
  unfold ret.
  assert (Hr : requested requests_post (stream_payload msgs)
                 (add_log w [InfoPayload (stream_payload msgs)])
               = add_log (add_sent (add_log w [InfoPayload (stream_payload msgs)])
                            (stream_payload msgs)) [ErrorMakingRequest])
    by (unfold requested; rewrite Hp; reflexivity).
  rewrite Hr. cbn [messages add_log add_sent].
  split; [reflexivity|].
  set (w1 := committed [] _).
  destruct (generate_follow_up_questions_frame json_loads requests_post
              (messages w ++ [mkMessage assistant []]) w1)
    as (Hm & _ & _ & _ & Hs).
  unfold bind.
  destruct (generate_follow_up_questions json_loads requests_post
              (messages w ++ [mkMessage assistant []]) w1) as [[qs|e] w2];
    cbn [fst snd messages sent set_suggestions] in *;
    rewrite Hm, Hs; subst w1; cbn [committed messages sent add_log add_sent];
    rewrite <- app_assoc;
    (split; [reflexivity|]); (split; [reflexivity|]);
    split; discriminate.
Qed.

Lemma C10_no_handle_witness :
  messages (snd (process_llm_response json_loads_ref
                   (transport None (Some (follow_up_of three_questions)))
                   (messages hi_world) hi_world))
  = [mkMessage user (lit "Hi"); mkMessage assistant []] /\
  suggestions (snd (process_llm_response json_loads_ref
                   (transport None (Some (follow_up_of three_questions)))
                   (messages hi_world) hi_world))
  = [lit "A?"; lit "B?"].
Proof.
  split.
  - exact (proj1 (proj2 (C10_no_handle json_loads_ref
             (transport None (Some (follow_up_of three_questions)))
             (messages hi_world) hi_world eq_refl))).
  - reflexivity.
Defined.

(** ** Follow-up questions *)

(** C6: when the follow-up response content, after trimming whitespace,
    starts with an opening brace, ends with a closing brace and decodes as a
    JSON object of string values, the synthesizer returns exactly the values
    that are not empty or whitespace-only, in the object's key order; and
    content that does not look like an object yields the empty list without
    raising. *)
Theorem C6_follow_up_values (json_loads : str -> option JSON)
    (requests_post : Payload -> option Response) (msgs : list Message)
    (w : World) (r : Response) (data : JSON) (content : str) :
  requests_post (follow_up_payload msgs) = Some r ->
  ok r = true ->
  json r = Some data ->
  message_content data = Ok (JStr content) ->
  (forall d,
     looks_like_object (strip content) = true ->
     json_loads (strip content) = Some (JObj d) ->
     forallb is_string (dict_values d) = true ->
     fst (generate_follow_up_questions json_loads requests_post msgs w)
     = Ok (nonblank_values d)) /\
  (looks_like_object (strip content) = false ->
   fst (generate_follow_up_questions json_loads requests_post msgs w)
   = Ok []).
Proof.
  intros Hp Hok Hj Hc.
  rewrite generate_follow_up_questions_eq. cbv zeta.
  rewrite Hp, Hok, Hj, (message_content_usable _ _ Hc).
  rewrite (follow_up_try_eq json_loads _ _ Hc).
  split.
  - intros d Hl Hd Hs. rewrite Hl, Hd. cbn [values_method].
    rewrite (questions_of_strings _ Hs). reflexivity.
  - intros Hl. rewrite Hl. reflexivity.
Qed.

Lemma C6_follow_up_values_witness :
  fst (generate_follow_up_questions json_loads_ref
         (fun _ => Some (follow_up_of three_questions)) [] empty_world)
  = Ok [lit "A?"; lit "B?"] /\
  fst (generate_follow_up_questions json_loads_ref
         (fun _ => Some (follow_up_of "not json")) [] empty_world)
  = Ok [].
Proof.
  split.
  - exact (proj1 (C6_follow_up_values json_loads_ref
                    (fun _ => Some (follow_up_of three_questions)) []
                    empty_world (follow_up_of three_questions)
                    (completion (JStr (json_text three_questions)))
                    (json_text three_questions)
                    eq_refl eq_refl eq_refl eq_refl)
             [(lit "q1", JStr (lit "A?")); (lit "q2", JStr []);
              (lit "q3", JStr (lit "B?"))]
             eq_refl eq_refl eq_refl).
  - exact (proj2 (C6_follow_up_values json_loads_ref
                    (fun _ => Some (follow_up_of "not json")) []
                    empty_world (follow_up_of "not json")
                    (completion (JStr (json_text "not json")))
                    (json_text "not json")
                    eq_refl eq_refl eq_refl eq_refl)
             eq_refl).
Defined.

(** C5 (as amended): for every conversation log, a list the follow-up
    synthesizer returns is empty or is what the comprehension makes of the
    decoded JSON object: all its values are strings and the list is exactly
    the non-blank ones, in key order, so at most one string per key/value
    pair; the code puts no bound of four on it. *)
Theorem C5_at_most_one_per_pair (json_loads : str -> option JSON)
    (requests_post : Payload -> option Response) (msgs : list Message)
    (w : World) (qs : list str) :
  fst (generate_follow_up_questions json_loads requests_post msgs w) = Ok qs ->
  qs = [] \/
  exists r data content d,
    requests_post (follow_up_payload msgs) = Some r /\
    json r = Some data /\
    message_content data = Ok (JStr content) /\
    json_loads (strip content) = Some (JObj d) /\
    questions_of (dict_values d) = Ok qs /\
    forallb is_string (dict_values d) = true /\
    qs = nonblank_values d /\
    (List.length qs <= List.length d)%nat.
Proof.
  rewrite generate_follow_up_questions_eq. cbv zeta.
  destruct (requests_post (follow_up_payload msgs)) as [r|] eqn:Hp;
    [|intros H; injection H as <-; auto].
  destruct (ok r); [|intros H; injection H as <-; auto].
  destruct (json r) as [data|] eqn:Hj; [|discriminate].
  destruct (usable data) as [[|]|e];
    [|intros H; injection H as <-; auto|discriminate].
  destruct (follow_up_try json_loads data) as [qs'|e] eqn:Ht.
  - intros H. injection H as <-.
    destruct (follow_up_try_inv json_loads data qs' Ht)
      as [->|(content & d & Hc & Hl & Hq)]; [auto|].
    right. exists r, data, content, d.
    assert (Hs : forallb is_string (dict_values d) = true).
    { destruct (forallb is_string (dict_values d)) eqn:Hf; [reflexivity|].
      rewrite (questions_of_not_strings _ Hf) in Hq. discriminate. }
    pose proof (questions_of_strings _ Hs) as Hv. rewrite Hq in Hv.
    injection Hv as Hv.
    pose proof (questions_of_length _ _ Hq) as Hlen.
    unfold dict_values in Hlen. rewrite length_map in Hlen.
    repeat split; auto.
  - destruct (catches_follow_up e); [|discriminate].
    intros H. injection H as <-. auto.
Qed.

Lemma C5_at_most_one_per_pair_witness :
  let qs := [lit "A"; lit "B"; lit "C"; lit "D"; lit "E"] in
  let post := fun _ : Payload => Some (follow_up_of five_questions) in
  fst (generate_follow_up_questions json_loads_ref post [] empty_world) = Ok qs
  /\
  (qs = [] \/
   exists r data content d,
     post (follow_up_payload []) = Some r /\
     json r = Some data /\
     message_content data = Ok (JStr content) /\
     json_loads_ref (strip content) = Some (JObj d) /\
     questions_of (dict_values d) = Ok qs /\
     forallb is_string (dict_values d) = true /\
     qs = nonblank_values d /\
     (List.length qs <= List.length d)%nat).
Proof.
  intros qs post. split.
  - reflexivity.
  - apply (C5_at_most_one_per_pair json_loads_ref post [] empty_world qs).
    reflexivity.
Defined.

(** C5, the claim as stated fails: an object of five questions comes back
    as five strings. *)
Lemma C5_counterexample :
  fst (generate_follow_up_questions json_loads_ref
         (fun _ => Some (follow_up_of five_questions)) [] empty_world)
  = Ok [lit "A"; lit "B"; lit "C"; lit "D"; lit "E"] /\
  (4 < List.length [lit "A"; lit "B"; lit "C"; lit "D"; lit "E"])%nat.
Proof. split; [vm_compute; reflexivity | simpl; lia]. Qed.

(** C4, the code at the failing inputs: a JSON object with a value that is
    not a string makes [q.strip()] raise [AttributeError], and a completion
    whose content is [null] makes [content.strip()] raise it; the handler
    catches only [JSONDecodeError] and [KeyError], so the exception leaves
    the synthesizer. *)
Theorem C4_exception_escapes :
  fst (generate_follow_up_questions json_loads_ref
         (fun _ => Some (follow_up_of number_question)) [] empty_world)
  = Raise AttributeError /\
  fst (generate_follow_up_questions json_loads_ref
         (fun _ => Some (buffered (completion JNull))) [] empty_world)
  = Raise AttributeError.
Proof. split; vm_compute; reflexivity. Qed.

(** What the boundary does absorb: text that does not decode, and a body
    with a missing field, give the empty list. *)
Example follow_up_absorbs_parse_and_key_errors :
  fst (generate_follow_up_questions json_loads_ref
         (fun _ => Some (follow_up_of "{not json}")) [] empty_world) = Ok [] /\
  fst (generate_follow_up_questions json_loads_ref
         (fun _ => Some (buffered (JObj [(lit "choices", JArr [JObj []])])))
         [] empty_world) = Ok [].
Proof. split; vm_compute; reflexivity. Qed.

(** ** More on the history window *)

Section WindowLaws.

Variables max_tokens margin : Z.

(** The running total only ever enters the test as a reduction of the
    budget, and the accumulator is only ever extended at the front. *)
Lemma truncate_loop_shift (todo : list Message) :
  forall budget total acc,
    truncate_loop budget margin todo total acc
    = truncate_loop (budget - total) margin todo 0 [] ++ acc.
Proof.
  induction todo as [|m todo IH]; intros budget total acc; simpl.
  - reflexivity.
  - replace (message_tokens m + margin <=? budget - total)
      with (total + message_tokens m + margin <=? budget)
      by (apply Bool.eq_true_iff_eq; rewrite !Z.leb_le; lia).
    destruct (total + message_tokens m + margin <=? budget);
      [|reflexivity].
    rewrite (IH budget (total + message_tokens m) (m :: acc)).
    rewrite (IH (budget - total) (message_tokens m) [m]).
    replace (budget - total - message_tokens m)
      with (budget - (total + message_tokens m)) by lia.
    rewrite <- app_assoc. reflexivity.
Qed.

Lemma truncate_with_snoc (L : list Message) (m : Message) :
  truncate_with max_tokens margin (L ++ [m])
  = if message_tokens m + margin <=? max_tokens
    then truncate_with (max_tokens - message_tokens m) margin L ++ [m]
    else [].
Proof.
  unfold truncate_with. rewrite rev_app_distr. simpl.
  destruct (message_tokens m + margin <=? max_tokens); [|reflexivity].
  apply truncate_loop_shift.
Qed.

(** Going on into older messages only adds to the front, and only when
    everything so far was taken. *)
Lemma truncate_loop_app (a b : list Message) :
  forall total acc,
    exists extra,
      truncate_loop max_tokens margin (a ++ b) total acc
      = extra ++ truncate_loop max_tokens margin a total acc /\
      (extra = [] \/
       truncate_loop max_tokens margin a total acc = rev a ++ acc).
Proof.
  induction a as [|m a IH]; intros total acc; simpl.
  - exists (truncate_loop (max_tokens - total) margin b 0 []).
    split; [apply truncate_loop_shift | right; reflexivity].
  - destruct (total + message_tokens m + margin <=? max_tokens).
    + destruct (IH (total + message_tokens m) (m :: acc))
        as (extra & He & Hx).
      exists extra. split; [exact He|].
      destruct Hx as [Hx|Hx]; [left; exact Hx|right].
      rewrite Hx, <- app_assoc. reflexivity.
    + exists []. split; [reflexivity | left; reflexivity].
Qed.

Lemma truncate_with_prepend (older L : list Message) :
  exists extra,
    truncate_with max_tokens margin (older ++ L)
    = extra ++ truncate_with max_tokens margin L /\
    (extra = [] \/ truncate_with max_tokens margin L = L).
Proof.
  unfold truncate_with. rewrite rev_app_distr.
  destruct (truncate_loop_app (rev L) (rev older) 0 []) as (extra & He & Hx).
  exists extra. split; [exact He|].
  destruct Hx as [Hx|Hx]; [left; exact Hx|right].
  rewrite Hx, rev_involutive, app_nil_r. reflexivity.
Qed.

End WindowLaws.

(** X1: a log whose cumulative word count plus the margin is within the
    budget is sent whole: [truncate_messages] returns it unchanged. *)
Theorem X1_truncate_keeps_fitting_log (L : list Message) :
  cost L + TOKEN_MARGIN <= MAX_TOKENS -> truncate_messages L = L.
Proof. apply truncate_with_fits. Qed.

Lemma X1_truncate_keeps_fitting_log_witness :
  truncate_messages two_messages = two_messages.
Proof.
  apply (X1_truncate_keeps_fitting_log two_messages).
  vm_compute. discriminate.
Defined.

(** X2: the window of a log with one more message at the end is that
    message after the window of the earlier log under the budget reduced by
    the message's cost, when the message fits; when it does not fit, the
    window is empty whatever the earlier messages are (the loop stops, it
    does not skip). *)
Theorem X2_truncate_newest_message (L : list Message) (m : Message) :
  truncate_messages (L ++ [m])
  = if message_tokens m + TOKEN_MARGIN <=? MAX_TOKENS
    then truncate_with (MAX_TOKENS - message_tokens m) TOKEN_MARGIN L ++ [m]
    else [].
Proof. apply truncate_with_snoc. Qed.

(** X3: putting older messages in front of a log never changes which of
    its messages are in the window: the new window is the old one with
    possibly more in front, and more only when the old window was the whole
    log. *)
Theorem X3_truncate_older_history (older L : list Message) :
  exists extra,
    truncate_messages (older ++ L) = extra ++ truncate_messages L /\
    (extra = [] \/ truncate_messages L = L).
Proof. apply truncate_with_prepend. Qed.

(** ** More on the buffered readers *)

(** The membership test, and the subscript after it, raise nothing but
    [TypeError]. *)
Lemma usable_raises (data : JSON) (e : exn) :
  usable data = Raise e -> e = TypeError.
Proof.
  unfold usable. destruct (truthy data); [|discriminate].
  unfold choices_present, rbind, contains, getitem.
  destruct data; try (intros H; injection H as <-; reflexivity).
  - destruct (substring_in (lit "choices") s); [|discriminate].
    intros H; injection H as <-; reflexivity.
  - destruct (existsb (eq_str (lit "choices")) items); [|discriminate].
    intros H; injection H as <-; reflexivity.
  - destruct (dict_get fields (lit "choices")); discriminate.
Qed.

(** A usable body is an object with a truthy [choices] value. *)
Lemma usable_true_inv (data : JSON) :
  usable data = Ok true ->
  exists d c,
    data = JObj d /\ dict_get d (lit "choices") = Some c /\ truthy c = true.
Proof.
  unfold usable. destruct (truthy data); [|discriminate].
  unfold choices_present, rbind, contains, getitem.
  destruct data; try discriminate.
  - destruct (substring_in (lit "choices") s); discriminate.
  - destruct (existsb (eq_str (lit "choices")) items); discriminate.
  - destruct (dict_get fields (lit "choices")) as [c|] eqn:Hc;
      [|discriminate].
    intros H. injection H as H. exists fields, c. auto.
Qed.

(** On a usable body, reading the content raises nothing but [KeyError]
    and [TypeError]. *)
Lemma message_content_raises (data : JSON) (e : exn) :
  usable data = Ok true ->
  message_content data = Raise e ->
  e = KeyError \/ e = TypeError.
Proof.
  intros Hu. destruct (usable_true_inv data Hu) as (d & c & -> & Hc & Ht).
  unfold message_content, rbind, getitem at 1. rewrite Hc.
  destruct c as [| b | n | f | s | items | fields]; simpl in Ht;
    try discriminate Ht;
    try (simpl; intros H; injection H as <-; auto).
  - destruct s as [|ch s]; [discriminate Ht|]. simpl.
    intros H; injection H as <-; auto.
  - destruct items as [|x items]; [discriminate Ht|]. simpl.
    unfold getitem.
    destruct x; try (intros H; injection H as <-; auto).
    destruct (dict_get fields (lit "message")) as [m|];
      [|intros H; injection H as <-; auto].
    destruct m; try (intros H; injection H as <-; auto).
    destruct (dict_get fields0 (lit "content"));
      [discriminate | intros H; injection H as <-; auto].
Qed.

Lemma message_content_first_choice (d first m : list (str * JSON))
    (rest : list JSON) (v : JSON) :
  dict_get d (lit "choices") = Some (JArr (JObj first :: rest)) ->
  dict_get first (lit "message") = Some (JObj m) ->
  dict_get m (lit "content") = Some v ->
  usable (JObj d) = Ok true /\ message_content (JObj d) = Ok v.
Proof.
  intros Hc Hm Hv.
  assert (Hmc : message_content (JObj d) = Ok v).
  { unfold message_content, rbind, getitem, getitem0.
    rewrite Hc, Hm, Hv. reflexivity. }
  split; [apply (message_content_usable _ _ Hmc) | exact Hmc].
Qed.

Section Initial.

Variable requests_post : Payload -> option Response.

(** [generate_initial_message], case by case. *)
Lemma generate_initial_message_eq (w : World) :
  generate_initial_message requests_post w =
  let w0 := requested requests_post initial_payload w in
  match requests_post initial_payload with
  | None => (Ok (JStr FALLBACK_GREETING), w0)
  | Some r =>
      if ok r then
        match json r with
        | None => (Raise JSONDecodeError, w0)
        | Some data =>
            let w1 := add_log w0 [InfoResponseData data] in
            match usable data with
            | Raise e => (Raise e, w1)
            | Ok false =>
                (Ok (JStr FALLBACK_GREETING),
                 add_log w1 [ErrorNoValidResponse])
            | Ok true => (message_content data, w1)
            end
        end
      else (Ok (JStr FALLBACK_GREETING), w0)
  end.
Proof.
  unfold generate_initial_message, bind. rewrite make_request_eq. cbv zeta.
  destruct (requests_post initial_payload) as [r|]; [|reflexivity].
  destruct (ok r) eqn:Hok; [|reflexivity].
  unfold ok in Hok. apply negb_true_iff in Hok.
  unfold log_and_return_response, bind, lift, response_json. rewrite Hok.
  simpl. destruct (json r) as [data|]; [|reflexivity].
  simpl. destruct (usable data) as [[|]|e]; reflexivity.
Qed.

End Initial.

(** X4: when the welcome request gives no handle, or a handle with a 4xx or
    5xx status, [generate_initial_message] returns the fixed greeting without
    reading the body: nothing but the request, and the request failure if
    there was one, is recorded. *)
Theorem X4_initial_message_without_handle
    (requests_post : Payload -> option Response) (w : World) :
  response_truthy (requests_post initial_payload) = false ->
  generate_initial_message requests_post w
  = (Ok (JStr FALLBACK_GREETING), requested requests_post initial_payload w).
Proof.
  intros H. rewrite generate_initial_message_eq. cbv zeta.
  unfold response_truthy in H.
  destruct (requests_post initial_payload) as [r|]; [|reflexivity].
  rewrite H. reflexivity.
Qed.

Lemma X4_initial_message_without_handle_witness :
  generate_initial_message (fun _ => Some server_error) empty_world
  = (Ok (JStr FALLBACK_GREETING), add_sent empty_world initial_payload) /\
  generate_initial_message (fun _ => None) empty_world
  = (Ok (JStr FALLBACK_GREETING),
     add_log (add_sent empty_world initial_payload) [ErrorMakingRequest]).
Proof.
  split.
  - exact (X4_initial_message_without_handle (fun _ => Some server_error)
             empty_world eq_refl).
  - exact (X4_initial_message_without_handle (fun _ => None)
             empty_world eq_refl).
Defined.

(** X5: for a success-status body whose [choices] list starts with an
    object holding [message.content], the welcome message is exactly that
    content, whatever follows in the list. *)
Theorem X5_initial_message_first_choice
    (requests_post : Payload -> option Response) (w : World) (r : Response)
    (d first m : list (str * JSON)) (rest : list JSON) (v : JSON) :
  requests_post initial_payload = Some r ->
  ok r = true ->
  json r = Some (JObj d) ->
  dict_get d (lit "choices") = Some (JArr (JObj first :: rest)) ->
  dict_get first (lit "message") = Some (JObj m) ->
  dict_get m (lit "content") = Some v ->
  fst (generate_initial_message requests_post w) = Ok v.
Proof.
  intros Hp Hok Hj Hc Hm Hv.
  destruct (message_content_first_choice d first m rest v Hc Hm Hv)
    as (Hu & Hmc).
  rewrite generate_initial_message_eq. cbv zeta.
  rewrite Hp, Hok, Hj, Hu, Hmc. reflexivity.
Qed.

Lemma X5_initial_message_first_choice_witness :
  fst (generate_initial_message (fun _ => Some (buffered greeting_body))
         empty_world)
  = Ok (JStr (lit "Welcome!")).
Proof.
  exact (X5_initial_message_first_choice
           (fun _ => Some (buffered greeting_body)) empty_world
           (buffered greeting_body)
           [(lit "id", JStr (lit "gen-1"));
            (lit "choices",
             JArr [JObj [(lit "message",
                          JObj [(lit "role", JStr (lit "assistant"));
                                (lit "content", JStr (lit "Welcome!"))])];
                   JObj [(lit "message",
                          JObj [(lit "content", JStr (lit "second choice"))])]])]
           [(lit "message",
             JObj [(lit "role", JStr (lit "assistant"));
                   (lit "content", JStr (lit "Welcome!"))])]
           [(lit "role", JStr (lit "assistant"));
            (lit "content", JStr (lit "Welcome!"))]
           [JObj [(lit "message",
                   JObj [(lit "content", JStr (lit "second choice"))])]]
           (JStr (lit "Welcome!"))
           eq_refl eq_refl eq_refl eq_refl eq_refl eq_refl).
Defined.

(** X6: the only exceptions that leave [generate_initial_message] are
    [JSONDecodeError], [TypeError] and [KeyError]: a transport failure or an
    error status never propagates, since [raise_for_status] is only reached
    behind the truthiness test of the response. *)
Theorem X6_initial_message_escapes
    (requests_post : Payload -> option Response) (w : World) (e : exn) :
  fst (generate_initial_message requests_post w) = Raise e ->
  e = JSONDecodeError \/ e = TypeError \/ e = KeyError.
Proof.
  rewrite generate_initial_message_eq. cbv zeta.
  destruct (requests_post initial_payload) as [r|]; [|discriminate].
  destruct (ok r); [|discriminate].
  destruct (json r) as [data|];
    [|intros H; injection H as <-; auto].
  destruct (usable data) as [[|]|e'] eqn:Hu.
  - simpl. intros H.
    destruct (message_content_raises data e Hu H) as [-> | ->]; auto.
  - discriminate.
  - simpl. intros H. injection H as <-.
    rewrite (usable_raises data e' Hu). auto.
Qed.

Lemma X6_initial_message_escapes_witness :
  fst (generate_initial_message (fun _ => Some html_page) empty_world)
  = Raise JSONDecodeError /\
  (JSONDecodeError = JSONDecodeError \/ JSONDecodeError = TypeError \/
   JSONDecodeError = KeyError).
Proof.
  split.
  - reflexivity.
  - apply (X6_initial_message_escapes (fun _ => Some html_page) empty_world).
    reflexivity.
Defined.

(** X7: a success-status response whose body is not JSON is not replaced
    by the greeting: [response.json()] raises and the exception leaves
    [generate_initial_message], with nothing logged after the request. *)
Theorem X7_initial_message_body_not_json
    (requests_post : Payload -> option Response) (w : World) (r : Response) :
  requests_post initial_payload = Some r ->
  ok r = true ->
  json r = None ->
  generate_initial_message requests_post w
  = (Raise JSONDecodeError, add_sent w initial_payload).
Proof.
  intros Hp Hok Hj. rewrite generate_initial_message_eq. cbv zeta.
  unfold requested. rewrite Hp, Hok, Hj. reflexivity.
Qed.

Lemma X7_initial_message_body_not_json_witness :
  generate_initial_message (fun _ => Some html_page) empty_world
  = (Raise JSONDecodeError, add_sent empty_world initial_payload).
Proof.
  exact (X7_initial_message_body_not_json (fun _ => Some html_page)
           empty_world html_page eq_refl eq_refl eq_refl).
Defined.

(** ** More on the follow-up synthesizer *)

Lemma questions_of_nonblank (vs : list JSON) :
  forall qs, questions_of vs = Ok qs ->
    Forall (fun s => is_blank s = false) qs.
Proof.
  induction vs as [|v vs IH]; intros qs H; simpl in H.
  - injection H as <-. constructor.
  - destruct v; try discriminate.
    destruct (questions_of vs) as [qs'|e]; [|discriminate].
    specialize (IH qs' eq_refl). unfold is_blank.
    destruct (strip s) eqn:Hs; injection H as <-; [exact IH|].
    constructor; [rewrite Hs; reflexivity | exact IH].
Qed.

Lemma questions_of_raises (vs : list JSON) (e : exn) :
  questions_of vs = Raise e -> e = AttributeError.
Proof.
  induction vs as [|v vs IH]; simpl; [discriminate|].
  destruct v; try (intros H; injection H as <-; reflexivity).
  destruct (questions_of vs) as [qs|e']; [discriminate|].
  intros H. injection H as <-. apply IH. reflexivity.
Qed.

Section FollowUpLaws.

Variable json_loads : str -> option JSON.
Variable requests_post : Payload -> option Response.

(** What the [try] block can raise on a usable body. *)
Lemma follow_up_try_raises (data : JSON) (e : exn) :
  usable data = Ok true ->
  follow_up_try json_loads data = Raise e ->
  e = KeyError \/ e = JSONDecodeError \/ e = TypeError \/ e = AttributeError.
Proof.
  intros Hu. destruct (message_content data) as [v|e'] eqn:Hm.
  - destruct v as [| | | |content| |];
      try (unfold follow_up_try; rewrite Hm; simpl;
           intros H; injection H as <-; auto).
    rewrite (follow_up_try_eq json_loads _ _ Hm).
    destruct (looks_like_object (strip content)); [|discriminate].
    destruct (json_loads (strip content)) as [v|];
      [|intros H; injection H as <-; auto].
    destruct v; simpl; try (intros H; injection H as <-; auto).
    intros H. rewrite (questions_of_raises _ _ H). auto.
  - unfold follow_up_try. rewrite Hm. simpl.
    intros H. injection H as <-.
    destruct (message_content_raises data e' Hu Hm) as [-> | ->]; auto.
Qed.

(** The value returned does not depend on the session state. *)
Lemma generate_follow_up_questions_result (msgs : list Message)
    (w1 w2 : World) :
  fst (generate_follow_up_questions json_loads requests_post msgs w1)
  = fst (generate_follow_up_questions json_loads requests_post msgs w2).
Proof.
  rewrite !generate_follow_up_questions_eq. cbv zeta.
  destruct (requests_post (follow_up_payload msgs)) as [r|]; [|reflexivity].
  destruct (ok r); [|reflexivity].
  destruct (json r) as [data|]; [|reflexivity].
  destruct (usable data) as [[|]|e]; try reflexivity.
  destruct (follow_up_try json_loads data) as [qs|e]; [reflexivity|].
  destruct (catches_follow_up e); reflexivity.
Qed.

End FollowUpLaws.

(** X8: [generate_follow_up_questions] never touches the conversation log,
    the suggestion set or the display; it sends exactly one request, which
    is not streamed and carries the window of the log followed by the
    follow-up instruction as its last, system, message. *)
Theorem X8_follow_up_frame (json_loads : str -> option JSON)
    (requests_post : Payload -> option Response) (msgs : list Message)
    (w : World) :
  let w' := snd (generate_follow_up_questions json_loads requests_post msgs w) in
  let p := follow_up_payload msgs in
  messages w' = messages w /\ suggestions w' = suggestions w /\
  shown w' = shown w /\ errors_shown w' = errors_shown w /\
  sent w' = sent w ++ [p] /\
  p_stream p = false /\
  p_messages p = truncate_messages msgs ++ [mkMessage system FOLLOW_UP_PROMPT].
Proof.
  destruct (generate_follow_up_questions_frame json_loads requests_post msgs w)
    as (Hm & Hsh & He & Hsu & Hse).
  cbv zeta. repeat split; assumption.
Qed.

(** X9: when the follow-up request gives no handle, or a handle with a 4xx
    or 5xx status, the synthesizer returns the empty list without reading
    the body. *)
Theorem X9_follow_up_without_handle (json_loads : str -> option JSON)
    (requests_post : Payload -> option Response) (msgs : list Message)
    (w : World) :
  response_truthy (requests_post (follow_up_payload msgs)) = false ->
  generate_follow_up_questions json_loads requests_post msgs w
  = (Ok [], requested requests_post (follow_up_payload msgs) w).
Proof.
  intros H. rewrite generate_follow_up_questions_eq. cbv zeta.
  unfold response_truthy in H.
  destruct (requests_post (follow_up_payload msgs)) as [r|]; [|reflexivity].
  rewrite H. reflexivity.
Qed.

Lemma X9_follow_up_without_handle_witness :
  generate_follow_up_questions json_loads_ref (fun _ => Some server_error)
    two_messages empty_world
  = (Ok [], add_sent empty_world (follow_up_payload two_messages)).
Proof.
  exact (X9_follow_up_without_handle json_loads_ref
           (fun _ => Some server_error) two_messages empty_world eq_refl).
Defined.

(** X10: every string the synthesizer returns has something other than
    whitespace in it: no suggestion is empty or blank. *)
Theorem X10_follow_up_nonblank (json_loads : str -> option JSON)
    (requests_post : Payload -> option Response) (msgs : list Message)
    (w : World) (qs : list str) :
  fst (generate_follow_up_questions json_loads requests_post msgs w) = Ok qs ->
  Forall (fun s => is_blank s = false) qs.
Proof.
  rewrite generate_follow_up_questions_eq. cbv zeta.
  destruct (requests_post (follow_up_payload msgs)) as [r|];
    [|intros H; injection H as <-; constructor].
  destruct (ok r); [|intros H; injection H as <-; constructor].
  destruct (json r) as [data|]; [|discriminate].
  destruct (usable data) as [[|]|e];
    [|intros H; injection H as <-; constructor|discriminate].
  destruct (follow_up_try json_loads data) as [qs'|e] eqn:Ht.
  - intros H. injection H as <-.
    destruct (follow_up_try_inv json_loads data qs' Ht)
      as [->|(content & d & _ & _ & Hq)]; [constructor|].
    apply (questions_of_nonblank _ _ Hq).
  - destruct (catches_follow_up e); [|discriminate].
    intros H. injection H as <-. constructor.
Qed.

Lemma X10_follow_up_nonblank_witness :
  Forall (fun s => is_blank s = false) [lit "A?"; lit "B?"].
Proof.
  apply (X10_follow_up_nonblank json_loads_ref
           (fun _ => Some (follow_up_of three_questions)) [] empty_world).
  reflexivity.
Defined.

(** X11: a usable body whose first choice lacks [message] or [content], and
    a content that looks like an object but does not decode, are absorbed:
    the synthesizer returns the empty list and logs the response data and
    then the parsing error. *)
Theorem X11_follow_up_absorbs (json_loads : str -> option JSON)
    (requests_post : Payload -> option Response) (msgs : list Message)
    (w : World) (r : Response) (data : JSON) (e : exn) :
  requests_post (follow_up_payload msgs) = Some r ->
  ok r = true ->
  json r = Some data ->
  usable data = Ok true ->
  (message_content data = Raise KeyError /\ e = KeyError) \/
  (exists content,
     message_content data = Ok (JStr content) /\
     looks_like_object (strip content) = true /\
     json_loads (strip content) = None /\ e = JSONDecodeError) ->
  generate_follow_up_questions json_loads requests_post msgs w
  = (Ok [],
     add_log (add_sent w (follow_up_payload msgs))
       [InfoFollowUpResponseData data; ErrorParsingFollowUp e]).
Proof.
  intros Hp Hok Hj Hu Hcase.
  rewrite generate_follow_up_questions_eq. cbv zeta.
  unfold requested. rewrite Hp, Hok, Hj, Hu.
  assert (Ht : follow_up_try json_loads data = Raise e
               /\ catches_follow_up e = true).
  { destruct Hcase as [[Hm ->] | (content & Hm & Hl & Hd & ->)].
    - unfold follow_up_try. rewrite Hm. split; reflexivity.
    - rewrite (follow_up_try_eq json_loads _ _ Hm), Hl, Hd.
      split; reflexivity. }
  destruct Ht as [-> ->]. rewrite add_log_app. reflexivity.
Qed.

Lemma X11_follow_up_absorbs_witness :
  fst (generate_follow_up_questions json_loads_ref
         (fun _ => Some (follow_up_of "{not json}")) [] empty_world) = Ok [] /\
  fst (generate_follow_up_questions json_loads_ref
         (fun _ => Some (buffered (JObj [(lit "choices", JArr [JObj []])])))
         [] empty_world) = Ok [].
Proof.
  split.
  - exact (f_equal fst
      (X11_follow_up_absorbs json_loads_ref
         (fun _ => Some (follow_up_of "{not json}")) [] empty_world
         (follow_up_of "{not json}")
         (completion (JStr (json_text "{not json}"))) JSONDecodeError
         eq_refl eq_refl eq_refl eq_refl
         (or_intror (ex_intro _ (json_text "{not json}")
            (conj eq_refl (conj eq_refl (conj eq_refl eq_refl))))))).
  - exact (f_equal fst
      (X11_follow_up_absorbs json_loads_ref
         (fun _ => Some (buffered (JObj [(lit "choices", JArr [JObj []])])))
         [] empty_world
         (buffered (JObj [(lit "choices", JArr [JObj []])]))
         (JObj [(lit "choices", JArr [JObj []])]) KeyError
         eq_refl eq_refl eq_refl eq_refl
         (or_introl (conj eq_refl eq_refl)))).
Defined.

(** X12: the only exceptions that leave [generate_follow_up_questions] are
    [JSONDecodeError], and then only because the response body itself is not
    JSON, [TypeError] and [AttributeError]; a missing key, a content that
    does not decode, a transport failure and an error status never
    propagate. *)
Theorem X12_follow_up_escapes (json_loads : str -> option JSON)
    (requests_post : Payload -> option Response) (msgs : list Message)
    (w : World) (e : exn) :
  fst (generate_follow_up_questions json_loads requests_post msgs w) = Raise e ->
  (e = JSONDecodeError /\
   exists r, requests_post (follow_up_payload msgs) = Some r /\ json r = None)
  \/ e = TypeError \/ e = AttributeError.
Proof.
  rewrite generate_follow_up_questions_eq. cbv zeta.
  destruct (requests_post (follow_up_payload msgs)) as [r|] eqn:Hp;
    [|discriminate].
  destruct (ok r); [|discriminate].
  destruct (json r) as [data|] eqn:Hj.
  - destruct (usable data) as [[|]|e'] eqn:Hu.
    + destruct (follow_up_try json_loads data) as [qs|e'] eqn:Ht;
        [discriminate|].
      destruct (catches_follow_up e') eqn:Hc; [discriminate|].
      simpl. intros H. injection H as <-.
      destruct (follow_up_try_raises json_loads data e' Hu Ht)
        as [-> | [-> | [-> | ->]]]; try discriminate Hc; auto.
    + discriminate.
    + simpl. intros H. injection H as <-.
      rewrite (usable_raises data e' Hu). auto.
  - simpl. intros H. injection H as <-. left. split; [reflexivity|].
    exists r. auto.
Qed.

Lemma X12_follow_up_escapes_witness :
  fst (generate_follow_up_questions json_loads_ref
         (fun _ => Some html_page) [] empty_world) = Raise JSONDecodeError /\
  ((JSONDecodeError = JSONDecodeError /\
    exists r, Some html_page = Some r /\ json r = None)
   \/ JSONDecodeError = TypeError \/ JSONDecodeError = AttributeError).
Proof.
  split.
  - reflexivity.
  - apply (X12_follow_up_escapes json_loads_ref (fun _ => Some html_page) []
             empty_world JSONDecodeError).
    reflexivity.
Defined.

(** X13: whatever the decoder, a content that decodes to an object holding
    a value that is not a string makes the synthesizer raise
    [AttributeError], even when other values are valid questions. *)
Theorem X13_follow_up_non_string_value (json_loads : str -> option JSON)
    (requests_post : Payload -> option Response) (msgs : list Message)
    (w : World) (r : Response) (data : JSON) (content : str)
    (d : list (str * JSON)) :
  requests_post (follow_up_payload msgs) = Some r ->
  ok r = true ->
  json r = Some data ->
  message_content data = Ok (JStr content) ->
  looks_like_object (strip content) = true ->
  json_loads (strip content) = Some (JObj d) ->
  forallb is_string (dict_values d) = false ->
  fst (generate_follow_up_questions json_loads requests_post msgs w)
  = Raise AttributeError.
Proof.
  intros Hp Hok Hj Hc Hl Hd Hs.
  rewrite generate_follow_up_questions_eq. cbv zeta.
  rewrite Hp, Hok, Hj, (message_content_usable _ _ Hc).
  rewrite (follow_up_try_eq json_loads _ _ Hc), Hl, Hd.
  cbn [values_method]. rewrite (questions_of_not_strings _ Hs). reflexivity.
Qed.

Lemma X13_follow_up_non_string_value_witness :
  fst (generate_follow_up_questions json_loads_ref
         (fun _ => Some (follow_up_of "{'q1':'A?','q2':null}")) []
         empty_world)
  = Raise AttributeError.
Proof.
  exact (X13_follow_up_non_string_value json_loads_ref
           (fun _ => Some (follow_up_of "{'q1':'A?','q2':null}")) []
           empty_world (follow_up_of "{'q1':'A?','q2':null}")
           (completion (JStr (json_text "{'q1':'A?','q2':null}")))
           (json_text "{'q1':'A?','q2':null}")
           [(lit "q1", JStr (lit "A?")); (lit "q2", JNull)]
           eq_refl eq_refl eq_refl eq_refl eq_refl eq_refl eq_refl).
Defined.

(** ** More on [process_llm_response] *)

Section ProcessLaws.

Variable json_loads : str -> option JSON.
Variable requests_post : Payload -> option Response.

Lemma requested_frame (p : Payload) (w : World) :
  let w' := requested requests_post p w in
  messages w' = messages w /\ suggestions w' = suggestions w /\
  shown w' = shown w /\ errors_shown w' = errors_shown w /\
  sent w' = sent w ++ [p].
Proof.
  unfold requested. destruct (requests_post p); simpl; auto 6.
Qed.

(** Folding the stream writes to the display and the log only. *)
Lemma assemble_frame (response : option Response) (w : World) :
  let w' := snd (assemble json_loads response w) in
  messages w' = messages w /\ suggestions w' = suggestions w /\
  sent w' = sent w.
Proof.
  destruct (response_truthy response) eqn:Ht.
  - destruct response as [r|]; [|discriminate]. simpl in Ht.
    rewrite assemble_streamed by exact Ht. simpl.
    destruct (stream_end (map (classify json_loads) (iter_lines r)))
      as [| |e]; simpl; auto.
    destruct (catches_request e); simpl; auto.
  - rewrite assemble_no_stream by exact Ht. simpl. auto.
Qed.

(** From the committed state on: the synthesizer runs on the updated log,
    and only a run that returns replaces the suggestions. *)
Lemma commit_and_follow_up (text : str) (w1 : World) :
  let updated := messages w1 ++ [mkMessage assistant text] in
  let run :=
    bind (generate_follow_up_questions json_loads requests_post updated)
      set_suggestions (committed text w1) in
  messages (snd run) = updated /\
  shown (snd run) = shown w1 /\
  errors_shown (snd run) = errors_shown w1 /\
  sent (snd run) = sent w1 ++ [follow_up_payload updated] /\
  (forall e, fst run = Raise e -> suggestions (snd run) = suggestions w1) /\
  (fst run = Ok tt ->
   fst (generate_follow_up_questions json_loads requests_post updated
          (committed text w1)) = Ok (suggestions (snd run))).
Proof.
  cbv zeta.
  destruct (generate_follow_up_questions_frame json_loads requests_post
              (messages w1 ++ [mkMessage assistant text]) (committed text w1))
    as (Hm & Hsh & He & Hsu & Hse).
  unfold bind.
  destruct (generate_follow_up_questions json_loads requests_post
              (messages w1 ++ [mkMessage assistant text]) (committed text w1))
    as [[qs|e] w2]; simpl in *.
  - repeat split; auto. discriminate.
  - repeat split; auto. discriminate.
Qed.

Lemma process_llm_response_raises (msgs : list Message) (w : World)
    (e : exn) (w1 : World) :
  assemble json_loads (requests_post (stream_payload msgs))
    (requested requests_post (stream_payload msgs)
       (add_log w [InfoPayload (stream_payload msgs)])) = (Raise e, w1) ->
  process_llm_response json_loads requests_post msgs w = (Raise e, w1).
Proof.
  intros H. rewrite process_llm_response_eq. cbv zeta. rewrite H.
  reflexivity.
Qed.

Lemma process_llm_response_commits (msgs : list Message) (w : World)
    (text : str) (w1 : World) :
  assemble json_loads (requests_post (stream_payload msgs))
    (requested requests_post (stream_payload msgs)
       (add_log w [InfoPayload (stream_payload msgs)])) = (Ok text, w1) ->
  process_llm_response json_loads requests_post msgs w
  = bind (generate_follow_up_questions json_loads requests_post
            (messages w1 ++ [mkMessage assistant text]))
      set_suggestions (committed text w1) /\
  messages w1 = messages w /\ suggestions w1 = suggestions w /\
  sent w1 = sent w ++ [stream_payload msgs].
Proof.
  intros H. rewrite process_llm_response_eq. cbv zeta. rewrite H.
  split; [reflexivity|].
  pose proof (assemble_frame (requests_post (stream_payload msgs))
    (requested requests_post (stream_payload msgs)
       (add_log w [InfoPayload (stream_payload msgs)]))) as Hf.
  rewrite H in Hf. cbv zeta in Hf. simpl in Hf.
  destruct Hf as (Hm & Hs & Hse).
  destruct (requested_frame (stream_payload msgs)
              (add_log w [InfoPayload (stream_payload msgs)]))
    as (Rm & Rs & _ & _ & Rse).
  rewrite Hm, Hs, Hse, Rm, Rs, Rse. simpl. auto.
Qed.

End ProcessLaws.

(** The classified items up to a sentinel do not depend on what follows
    it. *)
Lemma summary_after_sentinel (ks t1 t2 : list LineKind) :
  stream_end (ks ++ Sentinel :: t1) = stream_end (ks ++ Sentinel :: t2) /\
  deltas (ks ++ Sentinel :: t1) = deltas (ks ++ Sentinel :: t2) /\
  stream_log (ks ++ Sentinel :: t1) = stream_log (ks ++ Sentinel :: t2).
Proof.
  induction ks as [|k ks (IH1 & IH2 & IH3)]; simpl.
  - auto.
  - destruct k; rewrite ?IH1, ?IH2, ?IH3; auto.
Qed.

Lemma ignored_skip (ks1 ks2 : list LineKind) :
  stream_end (ks1 ++ Ignored :: ks2) = stream_end (ks1 ++ ks2) /\
  deltas (ks1 ++ Ignored :: ks2) = deltas (ks1 ++ ks2) /\
  stream_log (ks1 ++ Ignored :: ks2) = stream_log (ks1 ++ ks2).
Proof.
  induction ks1 as [|k ks1 (IH1 & IH2 & IH3)]; simpl.
  - auto.
  - destruct k; rewrite ?IH1, ?IH2, ?IH3; auto.
Qed.

Lemma prefixes_snoc (ds : list str) :
  forall full, ds <> [] ->
    exists earlier, prefixes full ds = earlier ++ [full ++ List.concat ds].
Proof.
  induction ds as [|t ds IH]; intros full Hne; [congruence|].
  destruct ds as [|t' ds].
  - exists []. simpl. rewrite app_nil_r. reflexivity.
  - destruct (IH (full ++ t)) as (earlier & He); [discriminate|].
    exists ((full ++ t) :: earlier).
    change (prefixes full (t :: t' :: ds))
      with ((full ++ t) :: prefixes (full ++ t) (t' :: ds)).
    rewrite He.
    change (List.concat (t :: t' :: ds)) with (t ++ List.concat (t' :: ds)).
    rewrite app_assoc. reflexivity.
Qed.

(** X14: a 4xx or 5xx status on the streaming request is treated like a
    missing handle: the lines of the body are never read, nothing is shown,
    and one assistant message with empty content is appended. *)
Theorem X14_process_error_status (json_loads : str -> option JSON)
    (requests_post : Payload -> option Response) (msgs : list Message)
    (w : World) (r : Response) :
  requests_post (stream_payload msgs) = Some r ->
  ok r = false ->
  let w' := snd (process_llm_response json_loads requests_post msgs w) in
  messages w' = messages w ++ [mkMessage assistant []] /\
  shown w' = shown w /\ errors_shown w' = errors_shown w.
Proof.
  intros Hp Hok.
  assert (Ha : assemble json_loads (requests_post (stream_payload msgs))
                 (requested requests_post (stream_payload msgs)
                    (add_log w [InfoPayload (stream_payload msgs)]))
               = (Ok [], add_sent (add_log w [InfoPayload (stream_payload msgs)])
                           (stream_payload msgs))).
  { unfold requested. rewrite Hp. unfold assemble. rewrite Hok. reflexivity. }
  destruct (process_llm_response_commits json_loads requests_post msgs w _ _ Ha)
    as (-> & _).
  destruct (commit_and_follow_up json_loads requests_post []
              (add_sent (add_log w [InfoPayload (stream_payload msgs)])
                 (stream_payload msgs)))
    as (Hm & Hsh & He & _).
  cbv zeta. rewrite Hm, Hsh, He. simpl. auto.
Qed.

Lemma X14_process_error_status_witness :
  let w' := snd (process_llm_response json_loads_ref
                   (transport (Some server_error) None)
                   (messages hi_world) hi_world) in
  messages w' = [mkMessage user (lit "Hi"); mkMessage assistant []] /\
  shown w' = [] /\ errors_shown w' = [].
Proof.
  exact (X14_process_error_status json_loads_ref
           (transport (Some server_error) None) (messages hi_world) hi_world
           server_error eq_refl eq_refl).
Defined.

(** X15: whatever happens, [process_llm_response] only appends to the
    conversation log.  Either the stream loop raises an exception no handler
    catches: then the log and the suggestions are untouched and only the
    streaming request was sent; or exactly one assistant message is appended
    and a second request follows, the follow-up request built from the log
    with that message in it. *)
Theorem X15_process_append_only (json_loads : str -> option JSON)
    (requests_post : Payload -> option Response) (msgs : list Message)
    (w : World) :
  let run := process_llm_response json_loads requests_post msgs w in
  (exists e,
     fst run = Raise e /\ messages (snd run) = messages w /\
     suggestions (snd run) = suggestions w /\
     sent (snd run) = sent w ++ [stream_payload msgs]) \/
  (exists text,
     messages (snd run) = messages w ++ [mkMessage assistant text] /\
     sent (snd run)
     = sent w ++ [stream_payload msgs;
                  follow_up_payload
                    (messages w ++ [mkMessage assistant text])]).
Proof.
  cbv zeta.
  destruct (assemble json_loads (requests_post (stream_payload msgs))
              (requested requests_post (stream_payload msgs)
                 (add_log w [InfoPayload (stream_payload msgs)])))
    as [[text|e] w1] eqn:Ha.
  - right. exists text.
    destruct (process_llm_response_commits json_loads requests_post msgs w _ _ Ha)
      as (-> & Hm & _ & Hse).
    destruct (commit_and_follow_up json_loads requests_post text w1)
      as (Cm & _ & _ & Cse & _).
    rewrite Cm, Cse, Hm, Hse, <- app_assoc. auto.
  - left. exists e.
    rewrite (process_llm_response_raises json_loads requests_post msgs w e w1 Ha).
    pose proof (assemble_frame json_loads (requests_post (stream_payload msgs))
      (requested requests_post (stream_payload msgs)
         (add_log w [InfoPayload (stream_payload msgs)]))) as Hf.
    rewrite Ha in Hf. cbv zeta in Hf. simpl in Hf.
    destruct Hf as (Hm & Hs & Hse).
    destruct (requested_frame requests_post (stream_payload msgs)
                (add_log w [InfoPayload (stream_payload msgs)]))
      as (Rm & Rs & _ & _ & Rse).
    simpl. rewrite Hm, Hs, Hse, Rm, Rs, Rse. auto.
Qed.

(** X16: the suggestion set is replaced wholesale, and only by a run that
    returns: then it is exactly what the synthesizer returns on the updated
    log, whatever it held before; a run that raises, also after the
    assistant message was committed, leaves the previous suggestions in
    place. *)
Theorem X16_process_suggestions (json_loads : str -> option JSON)
    (requests_post : Payload -> option Response) (msgs : list Message)
    (w : World) :
  let run := process_llm_response json_loads requests_post msgs w in
  (forall e, fst run = Raise e -> suggestions (snd run) = suggestions w) /\
  (fst run = Ok tt ->
   forall w0,
     fst (generate_follow_up_questions json_loads requests_post
            (messages (snd run)) w0) = Ok (suggestions (snd run))).
Proof.
  cbv zeta.
  destruct (assemble json_loads (requests_post (stream_payload msgs))
              (requested requests_post (stream_payload msgs)
                 (add_log w [InfoPayload (stream_payload msgs)])))
    as [[text|e] w1] eqn:Ha.
  - destruct (process_llm_response_commits json_loads requests_post msgs w _ _ Ha)
      as (-> & _ & Hs & _).
    destruct (commit_and_follow_up json_loads requests_post text w1)
      as (Cm & _ & _ & _ & Cr & Co).
    split.
    + intros e He. rewrite (Cr e He). exact Hs.
    + intros Hok w0. rewrite Cm.
      rewrite <- (Co Hok). apply generate_follow_up_questions_result.
  - rewrite (process_llm_response_raises json_loads requests_post msgs w e w1 Ha).
    pose proof (assemble_frame json_loads (requests_post (stream_payload msgs))
      (requested requests_post (stream_payload msgs)
         (add_log w [InfoPayload (stream_payload msgs)]))) as Hf.
    rewrite Ha in Hf. cbv zeta in Hf. simpl in Hf.
    destruct Hf as (_ & Hs & _).
    destruct (requested_frame requests_post (stream_payload msgs)
                (add_log w [InfoPayload (stream_payload msgs)]))
      as (_ & Rs & _).
    split; [|discriminate].
    intros _ _. simpl. rewrite Hs, Rs. reflexivity.
Qed.

Lemma X16_process_suggestions_witness :
  let fresh := process_llm_response json_loads_ref
                 (transport (Some hello_stream)
                    (Some (follow_up_of three_questions)))
                 (messages stale_world) stale_world in
  let failed := process_llm_response json_loads_ref
                  (transport (Some hello_stream) (Some html_page))
                  (messages stale_world) stale_world in
  suggestions (snd fresh) = [lit "A?"; lit "B?"] /\
  fst (generate_follow_up_questions json_loads_ref
         (transport (Some hello_stream) (Some (follow_up_of three_questions)))
         (messages (snd fresh)) empty_world) = Ok (suggestions (snd fresh)) /\
  fst failed = Raise JSONDecodeError /\
  suggestions (snd failed) = [lit "Old suggestion?"] /\
  messages (snd failed)
  = [mkMessage user (lit "Hi"); mkMessage assistant (lit "Hello, world")].
Proof.
  intros fresh failed.
  split; [reflexivity|]. split.
  - exact (proj2 (X16_process_suggestions json_loads_ref
             (transport (Some hello_stream)
                (Some (follow_up_of three_questions)))
             (messages stale_world) stale_world) eq_refl empty_world).
  - split; [reflexivity|]. split; [|reflexivity].
    exact (proj1 (X16_process_suggestions json_loads_ref
             (transport (Some hello_stream) (Some html_page))
             (messages stale_world) stale_world) JSONDecodeError eq_refl).
Defined.

(** X17: when a transport exception interrupts the stream, the error is
    reported once through [st.error], and the partial texts already shown
    stay shown: the display has shown one growing text per delta received
    before the failure, while the log gets the fixed error string. *)
Theorem X17_process_transport_failure_display
    (json_loads : str -> option JSON)
    (requests_post : Payload -> option Response) (msgs : list Message)
    (w : World) (r : Response) :
  requests_post (stream_payload msgs) = Some r ->
  ok r = true ->
  stream_end (map (classify json_loads) (iter_lines r))
  = Failed RequestException ->
  let w' := snd (process_llm_response json_loads requests_post msgs w) in
  errors_shown w' = errors_shown w ++ [RequestException] /\
  shown w'
  = shown w ++ prefixes [] (deltas (map (classify json_loads) (iter_lines r))) /\
  messages w' = messages w ++ [mkMessage assistant ERROR_TEXT].
Proof.
  intros Hp Hok Hend.
  pose proof (assemble_streamed json_loads r
    (requested requests_post (stream_payload msgs)
       (add_log w [InfoPayload (stream_payload msgs)])) Hok) as Ha.
  cbv zeta in Ha. rewrite Hend in Ha. cbn [catches_request] in Ha.
  rewrite <- Hp in Ha.
  destruct (process_llm_response_commits json_loads requests_post msgs w _ _ Ha)
    as (-> & Hm & _).
  match type of Ha with _ = (_, ?w1) =>
    destruct (commit_and_follow_up json_loads requests_post ERROR_TEXT w1)
      as (Cm & Csh & Ce & _)
  end.
  cbv zeta. rewrite Cm, Csh, Ce, Hm.
  destruct (requested_frame requests_post (stream_payload msgs)
              (add_log w [InfoPayload (stream_payload msgs)]))
    as (_ & _ & Rsh & Re & _).
  simpl. rewrite Rsh, Re. simpl. auto.
Qed.

Lemma X17_process_transport_failure_display_witness :
  let w' := snd (process_llm_response json_loads_ref
                   (transport (Some broken_stream) None)
                   (messages hi_world) hi_world) in
  errors_shown w' = [RequestException] /\
  shown w' = [lit "Hel"] /\
  messages w' = [mkMessage user (lit "Hi"); mkMessage assistant ERROR_TEXT].
Proof.
  exact (X17_process_transport_failure_display json_loads_ref
           (transport (Some broken_stream) None) (messages hi_world) hi_world
           broken_stream eq_refl eq_refl eq_refl).
Defined.

(** ** More on the stream loop *)

Section LoopLaws.

Variable json_loads : str -> option JSON.

Lemma classify_ignorable (d : str) :
  d = [] \/
  (str_eqb d DONE_LINE = false /\ startswith d DATA_PREFIX = false) ->
  classify json_loads (Line (Utf8 d)) = Ignored.
Proof.
  intros [-> | [Hd Hp]]; [reflexivity|].
  destruct d as [|c d']; [reflexivity|].
  rewrite classify_line by discriminate. rewrite Hd, Hp. reflexivity.
Qed.

(** The shapes for which the [try] block of a data line does nothing. *)
Lemma delta_of_silent (line : str) (d : list (str * JSON)) :
  json_loads (skipn (List.length DATA_PREFIX) line) = Some (JObj d) ->
  dict_get d (lit "choices") = None \/
  (exists c, dict_get d (lit "choices") = Some c /\ truthy c = false) \/
  (exists first rest,
     dict_get d (lit "choices") = Some (JArr (JObj first :: rest)) /\
     (dict_get first (lit "delta") = None \/
      exists delta,
        dict_get first (lit "delta") = Some (JObj delta) /\
        dict_get delta (lit "content") = None)) ->
  delta_of json_loads line = Ok None.
Proof.
  intros Hj Hcase. unfold delta_of, loads. rewrite Hj.
  unfold choices_present, rbind, contains, getitem.
  destruct Hcase as [Hc | [(c & Hc & Ht) | (first & rest & Hc & Hd)]];
    rewrite Hc.
  - reflexivity.
  - rewrite Ht. reflexivity.
  - simpl. destruct Hd as [Hd | (delta & Hd & Hk)]; rewrite Hd.
    + reflexivity.
    + rewrite Hk. reflexivity.
Qed.

End LoopLaws.

(** X18: the lines after the end-of-stream sentinel are never read:
    whatever follows the first sentinel, a transport failure included, the
    assembler returns the same text and leaves the same state. *)
Theorem X18_assemble_stops_at_sentinel (json_loads : str -> option JSON)
    (status : Z) (js : option JSON) (pre tail1 tail2 : list StreamItem)
    (w : World) :
  assemble json_loads
    (Some (mkResponse status js (pre ++ Line (Utf8 DONE_LINE) :: tail1))) w
  = assemble json_loads
      (Some (mkResponse status js (pre ++ Line (Utf8 DONE_LINE) :: tail2))) w.
Proof.
  set (r1 := mkResponse status js (pre ++ Line (Utf8 DONE_LINE) :: tail1)).
  set (r2 := mkResponse status js (pre ++ Line (Utf8 DONE_LINE) :: tail2)).
  destruct (ok r1) eqn:Hok.
  - assert (Hok2 : ok r2 = true) by exact Hok.
    rewrite (assemble_streamed json_loads r1 w Hok).
    rewrite (assemble_streamed json_loads r2 w Hok2).
    cbv zeta. subst r1 r2. cbn [iter_lines].
    rewrite !map_app, !map_cons, sentinel_kind. unfold summary_world.
    destruct (summary_after_sentinel (map (classify json_loads) pre)
                (map (classify json_loads) tail1)
                (map (classify json_loads) tail2)) as (-> & -> & ->).
    reflexivity.
  - assert (Hok2 : ok r2 = false) by exact Hok.
    unfold assemble. rewrite Hok, Hok2. reflexivity.
Qed.

(** X19: an empty line, and a line other than the sentinel that does not
    begin with [data: ] (a comment or keep-alive line), leave no trace: the
    text, the display and the log are what they are with the line absent. *)
Theorem X19_assemble_ignores_other_lines (json_loads : str -> option JSON)
    (d : str) (status : Z) (js : option JSON) (pre post : list StreamItem)
    (w : World) :
  d = [] \/
  (str_eqb d DONE_LINE = false /\ startswith d DATA_PREFIX = false) ->
  assemble json_loads
    (Some (mkResponse status js (pre ++ Line (Utf8 d) :: post))) w
  = assemble json_loads (Some (mkResponse status js (pre ++ post))) w.
Proof.
  intros Hd.
  pose proof (classify_ignorable json_loads d Hd) as Hk.
  set (r1 := mkResponse status js (pre ++ Line (Utf8 d) :: post)).
  set (r2 := mkResponse status js (pre ++ post)).
  destruct (ok r1) eqn:Hok.
  - assert (Hok2 : ok r2 = true) by exact Hok.
    rewrite (assemble_streamed json_loads r1 w Hok).
    rewrite (assemble_streamed json_loads r2 w Hok2).
    cbv zeta. subst r1 r2. cbn [iter_lines].
    rewrite !map_app, map_cons, Hk. unfold summary_world.
    destruct (ignored_skip (map (classify json_loads) pre)
                (map (classify json_loads) post)) as (-> & -> & ->).
    reflexivity.
  - assert (Hok2 : ok r2 = false) by exact Hok.
    unfold assemble. rewrite Hok, Hok2. reflexivity.
Qed.

Lemma X19_assemble_ignores_other_lines_witness :
  assemble json_loads_ref
    (Some (mkResponse 200 None
             (iter_lines (streamed [delta_line "Hel"])
              ++ Line (Utf8 keepalive_line)
                 :: iter_lines (streamed [delta_line "lo"])))) empty_world
  = assemble json_loads_ref
      (Some (mkResponse 200 None
               (iter_lines (streamed [delta_line "Hel"])
                ++ iter_lines (streamed [delta_line "lo"])))) empty_world
  /\
  assemble json_loads_ref
    (Some (mkResponse 200 None
             ([] ++ Line (Utf8 []) :: iter_lines (streamed [delta_line "lo"]))))
    empty_world
  = assemble json_loads_ref
      (Some (mkResponse 200 None
               ([] ++ iter_lines (streamed [delta_line "lo"])))) empty_world.
Proof.
  split.
  - exact (X19_assemble_ignores_other_lines json_loads_ref keepalive_line
             200 None (iter_lines (streamed [delta_line "Hel"]))
             (iter_lines (streamed [delta_line "lo"])) empty_world
             (or_intror (conj eq_refl eq_refl))).
  - exact (X19_assemble_ignores_other_lines json_loads_ref [] 200 None []
             (iter_lines (streamed [delta_line "lo"])) empty_world
             (or_introl eq_refl)).
Defined.

(** X20: a data line whose payload decodes to an object without a usable
    delta content is passed over in silence: when [choices] is missing or
    falsy, when the first choice has no [delta], or when the delta has no
    [content], the loop goes on from the same text and the same state, with
    nothing shown and nothing logged. *)
Theorem X20_silent_data_line (json_loads : str -> option JSON)
    (line : str) (d : list (str * JSON)) (rest : list StreamItem)
    (full : str) (w : World) :
  startswith line DATA_PREFIX = true ->
  str_eqb line DONE_LINE = false ->
  json_loads (skipn (List.length DATA_PREFIX) line) = Some (JObj d) ->
  dict_get d (lit "choices") = None \/
  (exists c, dict_get d (lit "choices") = Some c /\ truthy c = false) \/
  (exists first others,
     dict_get d (lit "choices") = Some (JArr (JObj first :: others)) /\
     (dict_get first (lit "delta") = None \/
      exists delta,
        dict_get first (lit "delta") = Some (JObj delta) /\
        dict_get delta (lit "content") = None)) ->
  stream_loop json_loads (Line (Utf8 line) :: rest) full w
  = stream_loop json_loads rest full w.
Proof.
  intros Hp Hd Hj Hcase.
  rewrite stream_loop_line by (apply data_line_nonempty; exact Hp).
  rewrite Hd, Hp. unfold bind. rewrite handle_data_line_eq.
  rewrite (delta_of_silent json_loads line d Hj Hcase). reflexivity.
Qed.

Lemma X20_silent_data_line_witness :
  stream_loop json_loads_ref
    (Line (Utf8 role_only_line) :: iter_lines (streamed [delta_line "Hi"]))
    [] empty_world
  = stream_loop json_loads_ref (iter_lines (streamed [delta_line "Hi"]))
      [] empty_world /\
  stream_loop json_loads_ref
    (Line (Utf8 usage_line) :: iter_lines (streamed [delta_line "Hi"]))
    [] empty_world
  = stream_loop json_loads_ref (iter_lines (streamed [delta_line "Hi"]))
      [] empty_world.
Proof.
  split.
  - exact (X20_silent_data_line json_loads_ref role_only_line
             [(lit "choices",
               JArr [JObj [(lit "delta",
                            JObj [(lit "role", JStr (lit "assistant"))])]])]
             (iter_lines (streamed [delta_line "Hi"])) [] empty_world
             eq_refl eq_refl eq_refl
             (or_intror (or_intror
                (ex_intro _ [(lit "delta",
                              JObj [(lit "role", JStr (lit "assistant"))])]
                   (ex_intro _ []
                      (conj eq_refl
                         (or_intror
                            (ex_intro _ [(lit "role", JStr (lit "assistant"))]
                               (conj eq_refl eq_refl))))))))).
  - exact (X20_silent_data_line json_loads_ref usage_line
             [(lit "choices", JArr []);
              (lit "usage", JObj [(lit "total_tokens", JInt 7)])]
             (iter_lines (streamed [delta_line "Hi"])) [] empty_world
             eq_refl eq_refl eq_refl
             (or_intror (or_introl
                (ex_intro _ (JArr []) (conj eq_refl eq_refl))))).
Defined.

(** X21: when the stream ends at the sentinel or closes, the text the
    assembler returns is the text on display: either no delta arrived,
    nothing was shown and the text is empty, or the last text shown is the
    text returned. *)
Theorem X21_assemble_returns_last_shown (json_loads : str -> option JSON)
    (r : Response) (w : World) :
  ok r = true ->
  stream_end (map (classify json_loads) (iter_lines r)) = Closed \/
  stream_end (map (classify json_loads) (iter_lines r)) = AtSentinel ->
  exists text,
    fst (assemble json_loads (Some r) w) = Ok text /\
    ((text = [] /\ shown (snd (assemble json_loads (Some r) w)) = shown w) \/
     exists earlier,
       shown (snd (assemble json_loads (Some r) w))
       = shown w ++ earlier ++ [text]).
Proof.
  intros Hok Hend.
  rewrite (assemble_streamed json_loads r w Hok). cbv zeta.
  set (ks := map (classify json_loads) (iter_lines r)) in *.
  exists (List.concat (deltas ks)).
  assert (Hshown :
    (List.concat (deltas ks) = [] /\
     shown (summary_world [] ks w) = shown w) \/
    exists earlier,
      shown (summary_world [] ks w)
      = shown w ++ earlier ++ [List.concat (deltas ks)]).
  { unfold summary_world. cbn [shown add_log add_shown].
    destruct (deltas ks) as [|t ds] eqn:Hds.
    - left. simpl. rewrite app_nil_r. auto.
    - right. destruct (prefixes_snoc (t :: ds) []) as (earlier & He);
        [discriminate|].
      exists earlier. rewrite He. reflexivity. }
  destruct Hend as [-> | ->]; split; auto.
Qed.

Lemma X21_assemble_returns_last_shown_witness :
  exists text,
    fst (assemble json_loads_ref (Some hello_stream) empty_world) = Ok text /\
    ((text = [] /\
      shown (snd (assemble json_loads_ref (Some hello_stream) empty_world))
      = shown empty_world) \/
     exists earlier,
       shown (snd (assemble json_loads_ref (Some hello_stream) empty_world))
       = shown empty_world ++ earlier ++ [text]).
Proof.
  exact (X21_assemble_returns_last_shown json_loads_ref hello_stream
           empty_world eq_refl (or_intror eq_refl)).
Defined.
